(** * Predictive maintenance, part 1: data preparation

    A shallow embedding of the notebook
    [Predictive-Maintenance-Data-Preparation.ipynb]: the construction of the
    label table [y_test] (cell 3), the function [prepare_data] (cell 5) and
    its two calls (cell 6), over a model of the data-frame operations they
    call.

    A data frame is an object on a heap: [df['RUL'] = ...] updates the frame
    [df] refers to in place, whereas [copy], [groupby(..).agg(..)], [join] and
    [drop] return a new frame.  The frame operations are first given on frame
    values (module [Frame]) and then as methods on references (module [vaex]).
    A frame is modelled by its visible columns, the ones [get_column_names()]
    lists and [export_hdf5] writes.

    The integer cells carry their type (int8 to int64): the key column of a
    grouped frame is an int8 column when the keys have a gap, and a join
    raises on key columns of different integer types and on a right table
    without rows.  So [prepare_data] returns on the tables that have a record
    and whose unit numbers are consecutive integers, as those of the data
    files are. *)

From stdpp Require Import base numbers list strings.
From Stdlib Require Import QArith.
Local Open Scope string_scope.
Local Open Scope list_scope.
Local Open Scope Z_scope.

(** ** 64-bit integers *)

(** The integer columns are [int64] arrays; their arithmetic wraps around. *)
Definition wrap64 (z : Z) : Z := (z + 2 ^ 63) `mod` 2 ^ 64 - 2 ^ 63.

Definition int64 (z : Z) : Prop := - 2 ^ 63 ≤ z < 2 ^ 63.

(** The signed integer types of the columns: int8, int16, int32 and int64. *)
Inductive width : Type := W8 | W16 | W32 | W64.

#[export] Instance width_eq_dec : EqDecision width.
Proof. solve_decision. Defined.

Definition bits (w : width) : Z :=
  match w with W8 => 8 | W16 => 16 | W32 => 32 | W64 => 64 end.

(** Arithmetic of a type wraps at its width. *)
Definition wrap (w : width) (z : Z) : Z :=
  match w with
  | W64 => wrap64 z
  | _ => (z + 2 ^ (bits w - 1)) `mod` 2 ^ bits w - 2 ^ (bits w - 1)
  end.

(** The type of the result of an operation on two integer types. *)
Definition width_max (v w : width) : width :=
  if decide (bits v ≤ bits w) then w else v.

(** The smallest signed integer type that holds every value from [lo] to
    [hi]. *)
Definition required_width (lo hi : Z) : width :=
  if decide (- 2 ^ 7 ≤ lo ∧ hi < 2 ^ 7) then W8
  else if decide (- 2 ^ 15 ≤ lo ∧ hi < 2 ^ 15) then W16
  else if decide (- 2 ^ 31 ≤ lo ∧ hi < 2 ^ 31) then W32
  else W64.

(** ** Floating-point payload *)

(** The settings and sensor channels are [float64] columns.  The notebook only
    carries them along, so binary64 arithmetic is kept abstract: a carrier with
    the operations the frame operations need.  The one law is that an integer
    of magnitude at most 2^53 survives the round trip through binary64. *)
Class Float64 := {
  float : Type;
  of_int : Z → float;
  to_int : float → Z;
  fadd : float → float → float;
  fsub : float → float → float;
  feqb : float → float → bool;
  isnan : float → bool;
  to_int_of_int : ∀ z, - 2 ^ 53 ≤ z ≤ 2 ^ 53 → to_int (of_int z) = z
}.

(** Exact rationals, used for the concrete tables of the examples. *)
Definition Q_to_int (q : Q) : Z := Qnum q `quot` Z.pos (Qden q).

Definition rational_float64 : Float64 := {|
  float := Q;
  of_int := inject_Z;
  to_int := Q_to_int;
  fadd := Qplus;
  fsub := Qminus;
  feqb := Qeq_bool;
  isnan := λ _, false;
  to_int_of_int := λ z _, Z.quot_1_r z
|}.

Section DataFrames.
Context `{FL : Float64}.

(** ** Cells and element-wise arithmetic *)

(** A cell of a column: an integer of some width, a [float64], or a masked
    (missing) entry, as a left join leaves where the right table has no
    matching row.  [Int z] is an [int64] cell, the type of the integer columns
    read from the files. *)
Inductive cell : Type :=
| Integer (w : width) (z : Z)
| Float (x : float)
| NA.

(** [a + b] and [a - b] on columns, cell by cell: integers take the wider of
    the two types and wrap at its width, an integer meeting a float is
    converted first, a missing operand gives a missing result. *)
Definition cell_add (a b : cell) : cell :=
  match a, b with
  | Integer v x, Integer w y => Integer (width_max v w) (wrap (width_max v w) (x + y))
  | Integer _ x, Float y => Float (fadd (of_int x) y)
  | Float x, Integer _ y => Float (fadd x (of_int y))
  | Float x, Float y => Float (fadd x y)
  | _, _ => NA
  end.

Definition cell_sub (a b : cell) : cell :=
  match a, b with
  | Integer v x, Integer w y => Integer (width_max v w) (wrap (width_max v w) (x - y))
  | Integer _ x, Float y => Float (fsub (of_int x) y)
  | Float x, Integer _ y => Float (fsub x (of_int y))
  | Float x, Float y => Float (fsub x y)
  | _, _ => NA
  end.

(** [astype('int')] on one cell: the result is an [int64]. *)
Definition cell_astype_int (a : cell) : cell :=
  match a with
  | Integer _ x => Integer W64 x
  | Float x => Integer W64 (wrap64 (to_int x))
  | NA => NA
  end.

(** Equality of two key cells, as [groupby] and [join] compare them. *)
Definition key_eqb (a b : cell) : bool :=
  match a, b with
  | Integer _ x, Integer _ y => x =? y
  | Integer _ x, Float y => feqb (of_int x) y
  | Float x, Integer _ y => feqb x (of_int y)
  | Float x, Float y => feqb x y
  | NA, NA => true
  | _, _ => false
  end.

(** [vaex.agg.count(column)] counts the cells that are neither missing nor
    NaN. *)
Definition counted (a : cell) : bool :=
  match a with
  | Integer _ _ => true
  | Float x => negb (isnan x)
  | NA => false
  end.

(** The integer type of a column, read off its cells; a column of another
    type, or without cells, has none. *)
Definition column_width (c : list cell) : option width :=
  match c with
  | Integer w _ :: _ => Some w
  | _ => None
  end.

(** The values of a column all of whose cells are [int64]. *)
Fixpoint int64_values (c : list cell) : option (list Z) :=
  match c with
  | [] => Some []
  | Integer W64 z :: c => cons z <$> int64_values c
  | _ => None
  end.

End DataFrames.

Abbreviation Int := (Integer W64).

(** ** Frames, exceptions, results *)

(** A frame: its number of rows and its columns, in order, by name. *)
Record DataFrame `{FL : Float64} : Type := {
  length_original : nat;
  columns : list (string * list cell)
}.

(** The Python exceptions the frame operations raise.  [InvalidRef] stands for
    the use of a reference that names no object; Python cannot produce one. *)
Inductive exn : Type :=
| KeyError (name : string)
| AttributeError (name : string)
| ValueError (msg : string)
| TypeError (msg : string)
| IndexError (msg : string)
| InvalidRef (r : nat).

Inductive result (A : Type) : Type :=
| Ok (a : A)
| Raise (e : exn).
Arguments Ok {A} a.
Arguments Raise {A} e.

#[export] Instance result_ret : MRet result := λ A a, Ok a.
#[export] Instance result_bind : MBind result := λ A B k m,
  match m with
  | Ok a => k a
  | Raise e => Raise e
  end.

(** ** The frame operations, on frame values *)

Module Frame.
Section Frame.
Context `{FL : Float64}.

Definition get_column_names (f : DataFrame) : list string := (columns f).*1.

Fixpoint lookup_column (name : string) (cols : list (string * list cell))
  : option (list cell) :=
  match cols with
  | [] => None
  | c :: cols => if decide (c.1 = name) then Some c.2 else lookup_column name cols
  end.

Definition column (f : DataFrame) (name : string) : option (list cell) :=
  lookup_column name (columns f).

(** [df[name]]: a [KeyError] for a name that is not a column. *)
Definition getitem (f : DataFrame) (name : string) : result (list cell) :=
  match column f name with
  | Some c => Ok c
  | None => Raise (KeyError name)
  end.

(** [df.copy()]: the same table, as a new object (see [vaex.copy]). *)
Definition copy (f : DataFrame) : DataFrame := f.

(** *** groupby and count *)

(** The distinct keys of a column.  Their order in the grouped frame is not
    used by the notebook: the grouped frame is only joined back by key. *)
Fixpoint unique (keys : list cell) : list cell :=
  match keys with
  | [] => []
  | k :: keys => if existsb (key_eqb k) keys then unique keys else k :: unique keys
  end.

(** The number of rows of group [u] whose cell in the counted column counts. *)
Fixpoint count_group (u : cell) (keys vals : list cell) : nat :=
  match keys, vals with
  | k :: keys, v :: vals =>
      ((if key_eqb k u && counted v then 1 else 0) + count_group u keys vals)%nat
  | _, _ => 0%nat
  end.

(** The key column of the grouped frame.  The distinct keys of an [int64]
    column keep their type when they are consecutive integers; when they have
    a gap, the grouped key column has the smallest signed integer type that
    holds them, int8 for keys between -128 and 127.  Keys of another type are
    kept as they are. *)
Definition grouped_keys (groups : list cell) : list cell :=
  match int64_values groups with
  | Some (z :: zs) =>
      let lo := foldr Z.min z zs in
      let hi := foldr Z.max z zs in
      if decide (hi - lo + 1 = Z.of_nat (length (z :: zs))) then groups
      else Integer (required_width lo hi) <$> (z :: zs)
  | _ => groups
  end.

(** [df.groupby(by).agg({name: vaex.agg.count(of)})]: one row per distinct
    key, with the key column and the count column. *)
Definition groupby_agg_count (f : DataFrame) (by_ name of_ : string)
  : result DataFrame :=
  keys ← getitem f by_;
  vals ← getitem f of_;
  let groups := unique keys in
  Ok {| length_original := length groups;
        columns := [(by_, grouped_keys groups);
                    (name, (λ u, Int (wrap64 (Z.of_nat (count_group u keys vals))))
                             <$> groups)] |}.

(** *** left join *)

Fixpoint has_duplicates (keys : list cell) : bool :=
  match keys with
  | [] => false
  | k :: keys => existsb (key_eqb k) keys || has_duplicates keys
  end.

(** The row of the right table that holds key [k], if any. *)
Fixpoint index_of (keys : list cell) (k : cell) : option nat :=
  match keys with
  | [] => None
  | k' :: keys => if key_eqb k k' then Some 0%nat else S <$> index_of keys k
  end.

(** A column of the right table, read through the row lookup; a row of the
    left table without a match gets a missing cell. *)
Definition indexed (lookup : list (option nat)) (c : list cell) : list cell :=
  (λ o, match o with
        | Some j => default NA (c !! j)
        | None => NA
        end) <$> lookup.

(** The key columns of the two tables are integer columns of different
    types. *)
Definition width_mismatch (lkeys rkeys : list cell) : bool :=
  match column_width lkeys, column_width rkeys with
  | Some v, Some w => bool_decide (v ≠ w)
  | _, _ => false
  end.

(** [left.join(right, on=on, how='left')], with the defaults: no prefixes or
    suffixes, and [allow_duplication=False].  The rows of [left] are kept, in
    order; the columns of [right] other than [on] are added.  In this order:
    a column of [right] other than [on] whose name [left] already has is a
    name collision; the keys of [right] are indexed, which fails on a table
    without rows; a repeated key in [right] is refused; and the keys of
    [left] are looked up in the index, which fails when the two key columns
    are integers of different types. *)
Definition join (left right : DataFrame) (on : string) : result DataFrame :=
  match list_find (λ name, name ≠ on ∧ name ∈ get_column_names left)
                  (get_column_names right) with
  | Some _ => Raise (ValueError "column name collision")
  | None =>
      rkeys ← getitem right on;
      lkeys ← getitem left on;
      if decide (length rkeys = 0%nat)
      then Raise (IndexError "index of a table without rows")
      else if has_duplicates rkeys
      then Raise (ValueError "this join will lead to duplication of rows")
      else if width_mismatch lkeys rkeys
      then Raise (TypeError "key columns of different integer types")
      else
        let lookup := index_of rkeys <$> lkeys in
        Ok {| length_original := length_original left;
              columns := columns left ++
                ((λ c, (c.1, indexed lookup c.2)) <$>
                   filter (λ c, c.1 ≠ on) (columns right)) |}
  end.

(** *** expressions and column assignment *)

(** The column expressions the notebook writes: [df.name], [a + b], [a - b]
    and [a.astype('int')]. *)
Inductive expr : Type :=
| Col (name : string)
| Add (a b : expr)
| Sub (a b : expr)
| AsTypeInt (a : expr).

(** The values of an expression on a frame; [df.name] for a name that is not a
    column is an [AttributeError]. *)
Fixpoint evaluate (f : DataFrame) (e : expr) : result (list cell) :=
  match e with
  | Col name =>
      match column f name with
      | Some c => Ok c
      | None => Raise (AttributeError name)
      end
  | Add a b => x ← evaluate f a; y ← evaluate f b; Ok (zip_with cell_add x y)
  | Sub a b => x ← evaluate f a; y ← evaluate f b; Ok (zip_with cell_sub x y)
  | AsTypeInt a => x ← evaluate f a; Ok (cell_astype_int <$> (x : list cell))
  end.

(** A column of that name takes the new values; otherwise the column is added
    last. *)
Fixpoint set_column (name : string) (vals : list cell)
    (cols : list (string * list cell)) : list (string * list cell) :=
  match cols with
  | [] => [(name, vals)]
  | c :: cols =>
      if decide (c.1 = name) then (name, vals) :: cols
      else c :: set_column name vals cols
  end.

(** [df[name] = expression]. *)
Definition setitem (f : DataFrame) (name : string) (e : expr) : result DataFrame :=
  vals ← evaluate f e;
  Ok {| length_original := length_original f;
        columns := set_column name vals (columns f) |}.

(** [df[name] = array] ([add_column]): the array must have the frame's
    length. *)
Definition add_column (f : DataFrame) (name : string) (vals : list cell)
  : result DataFrame :=
  if decide (length vals = length_original f)
  then Ok {| length_original := length_original f;
             columns := set_column name vals (columns f) |}
  else Raise (ValueError "array length differs from the length of the DataFrame").

(** *** drop *)

Definition remove_column (name : string) (f : DataFrame) : DataFrame :=
  {| length_original := length_original f;
     columns := filter (λ c, c.1 ≠ name) (columns f) |}.

(** [df.drop(columns=names)]: the named columns leave the visible table, one
    after the other. *)
Fixpoint drop (f : DataFrame) (names : list string) : result DataFrame :=
  match names with
  | [] => Ok f
  | name :: names =>
      if decide (name ∈ get_column_names f)
      then drop (remove_column name f) names
      else Raise (KeyError name)
  end.

(** *** sources of columns *)

(** [vaex.vrange(start, stop)]: the float64 column start, start+1, ...,
    stop-1. *)
Definition vrange (start stop : Z) : list cell :=
  (λ k, Float (of_int k)) <$> seqZ start (stop - start).

(** [vaex.read_csv(path, names=[name])] on a file that holds one integer per
    line: a frame with that one column, an [int64] column when every line is
    a 64-bit integer.  A file with a line outside that range is read as a
    column of another type, which this model does not cover: the properties
    of the arithmetic on the values of the file take its lines to be 64-bit
    integers. *)
Definition read_csv (lines : list Z) (name : string) : DataFrame :=
  {| length_original := length lines; columns := [(name, Int <$> lines)] |}.

End Frame.
End Frame.

(** ** The heap of frames and the methods on references *)

(** A Python variable holds a reference to a frame object; the heap is the
    list of the objects allocated so far. *)
Abbreviation ref := nat.
Abbreviation heap := (list DataFrame).

(** A computation reads and updates the heap and returns a value or raises;
    the heap survives an exception. *)
Definition M `{FL : Float64} (A : Type) : Type := heap → result A * heap.

#[export] Instance M_ret `{FL : Float64} : MRet M := λ A a h, (Ok a, h).
#[export] Instance M_bind `{FL : Float64} : MBind M := λ A B k m h,
  match m h with
  | (Ok a, h') => k a h'
  | (Raise e, h') => (Raise e, h')
  end.

Module vaex.
Section vaex.
Context `{FL : Float64}.

Definition deref (r : ref) : M DataFrame := λ h,
  match h !! r with
  | Some f => (Ok f, h)
  | None => (Raise (InvalidRef r), h)
  end.

Definition alloc (f : DataFrame) : M ref := λ h, (Ok (length h), h ++ [f]).

Definition store (r : ref) (f : DataFrame) : M () := λ h, (Ok (), <[r := f]> h).

Definition lift {A : Type} (x : result A) : M A := λ h, (x, h).

(** [df.copy()] *)
Definition copy (df : ref) : M ref :=
  f ← deref df; alloc (Frame.copy f).

(** [df.groupby(by).agg({name: vaex.agg.count(of)})] *)
Definition groupby_agg_count (df : ref) (by_ name of_ : string) : M ref :=
  f ← deref df;
  g ← lift (Frame.groupby_agg_count f by_ name of_);
  alloc g.

(** [df.join(other, on=on, how='left')]: [inplace] is false, the columns are
    added to a copy of [df]. *)
Definition join (df other : ref) (on : string) : M ref :=
  l ← deref df;
  r ← deref other;
  j ← lift (Frame.join l r on);
  alloc j.

(** [df[name] = expression]: updates the object [df] refers to. *)
Definition setitem (df : ref) (name : string) (e : Frame.expr) : M () :=
  f ← deref df;
  f' ← lift (Frame.setitem f name e);
  store df f'.

(** [df[name] = array]: updates the object [df] refers to. *)
Definition add_column (df : ref) (name : string) (vals : list cell) : M () :=
  f ← deref df;
  f' ← lift (Frame.add_column f name vals);
  store df f'.

(** [df.drop(columns=names)]: [inplace] is false. *)
Definition drop (df : ref) (names : list string) : M ref :=
  f ← deref df;
  d ← lift (Frame.drop f names);
  alloc d.

(** [vaex.read_csv(path, names=[name])] *)
Definition read_csv (lines : list Z) (name : string) : M ref :=
  alloc (Frame.read_csv lines name).

End vaex.
End vaex.

(** ** The notebook *)

Section Notebook.
Context `{FL : Float64}.
Import Frame.

(** Cell 3: the schema of the run tables. *)
Definition column_names : list string :=
  ["unit_number"; "time_in_cycles"; "setting_1"; "setting_2"; "setting_3";
   "T2"; "T24"; "T30"; "T50"; "P2"; "P15"; "P30"; "Nf"; "Nc"; "epr"; "Ps30"; "phi";
   "NRf"; "NRc"; "BPR"; "farB"; "htBleed"; "Nf_dmd"; "PCNfR_dmd"; "W31"; "W32"].

(** Cell 3: the label table, from the lines of the label file. *)
Definition y_test (lines : list Z) : M ref :=
  y_test ← vaex.read_csv lines "remaining_cycles";
  vaex.add_column y_test "unit_number" (vrange 1 101);;
  vaex.setitem y_test "unit_number" (AsTypeInt (Col "unit_number"));;
  mret y_test.

(** Cell 5. *)
Definition prepare_data (data : ref) (y : option ref) : M ref :=
  df ← vaex.copy data;
  g ← vaex.groupby_agg_count df "unit_number" "max_cycles" "time_in_cycles";
  df ← vaex.join df g "unit_number";
  match y with
  | None =>
      vaex.setitem df "RUL" (Sub (Col "max_cycles") (Col "time_in_cycles"));;
      df ← vaex.drop df ["max_cycles"];
      mret df
  | Some y =>
      df ← vaex.join df y "unit_number";
      vaex.setitem df "RUL"
        (Sub (Add (Col "max_cycles") (Col "remaining_cycles")) (Col "time_in_cycles"));;
      df ← vaex.drop df ["remaining_cycles"; "max_cycles"];
      mret df
  end.

(** Cell 6: the train table and the test table. *)
Definition cell_6 (train_data test_data y_test : ref) : M (ref * ref) :=
  df_train ← prepare_data train_data None;
  df_test ← prepare_data test_data (Some y_test);
  mret (df_train, df_test).

(** Cells 3 and 6 after the two run files are read: the label table from the
    lines of the label file, then the two tables of cell 6. *)
Definition notebook (train_data test_data : ref) (lines : list Z) : M (ref * ref) :=
  y ← y_test lines;
  cell_6 train_data test_data y.

End Notebook.

(** * The vocabulary of the properties *)

(** ** Unit and cycle columns *)

(** The number of rows of unit [u] in the unit column [us]: the unit's
    max_cycles. *)
Definition rows_of_unit (u : Z) (us : list Z) : nat :=
  length (filter (λ v, v = u) us).

(** The row of the label table that holds unit [u], if any. *)
Definition position (u : Z) (ks : list Z) : option nat :=
  fst <$> list_find (λ k, k = u) ks.

(** The time_in_cycles values of the rows of unit [u]. *)
Definition cycles_of (u : Z) (us ts : list Z) : list Z :=
  (filter (λ p, p.1 = u) (zip us ts)).*2.

(** Each unit's cycles are contiguous from 1: the cycles of a unit with [n]
    rows are 1, 2, ..., n, in some order. *)
Definition contiguous_from_1 (us ts : list Z) : Prop :=
  ∀ u, cycles_of u us ts ≡ₚ seqZ 1 (Z.of_nat (rows_of_unit u us)).

(** The unit numbers have no gap: every integer between two unit numbers of
    the table is itself a unit number of the table. *)
Definition gap_free (us : list Z) : Prop :=
  ∀ u v w, u ∈ us → w ∈ us → u ≤ v ≤ w → v ∈ us.

(** Row [i] is the record of unit [u] with the greatest time_in_cycles, [t]. *)
Definition last_record (us ts : list Z) (i : nat) (u t : Z) : Prop :=
  us !! i = Some u ∧ ts !! i = Some t ∧
  ∀ j t', us !! j = Some u → ts !! j = Some t' → t' ≤ t.

Section Vocabulary.
Context `{FL : Float64}.
Import Frame.
Implicit Types (h hs : heap) (f out : DataFrame) (us ts ks rs lines : list Z).

(** ** Tables of the data model *)

(** Every column has the frame's length, and the length is a machine
    integer. *)
Definition well_formed f : Prop :=
  Z.of_nat (length_original f) < 2 ^ 63 ∧
  Forall (λ c, length c.2 = length_original f) (columns f).

(** A run table: [unit_number] and [time_in_cycles] are integer columns, with
    values [us] and [ts], and no column bears the name of a derived field; the
    table has a record, and its unit numbers are consecutive integers. *)
Definition run_table f us ts : Prop :=
  well_formed f ∧
  column f "unit_number" = Some (Int <$> us) ∧
  column f "time_in_cycles" = Some (Int <$> ts) ∧
  ("max_cycles" ∉ get_column_names f) ∧
  ("remaining_cycles" ∉ get_column_names f) ∧
  ("RUL" ∉ get_column_names f) ∧
  us ≠ [] ∧
  gap_free us.

(** A label table, as cell 3 builds it: the integer columns
    [remaining_cycles], with values [rs], and [unit_number], with values [ks];
    as a mapping, it has one row per unit, and it has a row. *)
Definition label_table (y : DataFrame) ks rs : Prop :=
  columns y = [("remaining_cycles", Int <$> rs); ("unit_number", Int <$> ks)] ∧
  length rs = length ks ∧
  NoDup ks ∧
  ks ≠ [].

(** The optional argument [y] of [prepare_data], when given, refers to a label
    table. *)
Definition labels_present h (y : option ref) : Prop :=
  match y with
  | None => True
  | Some y => ∃ yf ks rs, h !! y = Some yf ∧ label_table yf ks rs
  end.

(** In the test variant, every unit of the run table has a label with
    remaining_cycles at least 0, and the unit's whole life, its max_cycles plus
    its remaining_cycles, is a 64-bit integer. *)
Definition labels_nonnegative h (y : option ref) us : Prop :=
  match y with
  | None => True
  | Some y =>
      ∃ yf ks rs, h !! y = Some yf ∧ label_table yf ks rs ∧
        ∀ u, u ∈ us →
          ∃ j r, ks !! j = Some u ∧ rs !! j = Some r ∧ 0 ≤ r ∧
                 int64 (Z.of_nat (rows_of_unit u us) + r)
  end.

(** ** Results of a run *)

(** [m], run on heap [h], returns a reference to the frame [out]. *)
Definition returns (m : M ref) h out : Prop :=
  ∃ r h', m h = (Ok r, h') ∧ h' !! r = Some out.

(** The cell of row [i] in the column [name]. *)
Definition cell_at f (name : string) (i : nat) : option cell :=
  c ← column f name; c !! i.

(** [m], run on heap [h], raises an exception. *)
Definition raises {A : Type} (m : M A) h : Prop :=
  ∃ e h', m h = (Raise e, h').

(** [m], run on heap [h], raises a [ValueError]. *)
Definition raises_ValueError {A : Type} (m : M A) h : Prop :=
  ∃ msg h', m h = (Raise (ValueError msg), h').

(** [m], run on heap [h], raises a [TypeError]; an [IndexError]. *)
Definition raises_TypeError {A : Type} (m : M A) h : Prop :=
  ∃ msg h', m h = (Raise (TypeError msg), h').

Definition raises_IndexError {A : Type} (m : M A) h : Prop :=
  ∃ msg h', m h = (Raise (IndexError msg), h').

(** The label table with unit column [ks] and remaining_cycles column [rs]
    gives unit [u] the label [r]. *)
Definition has_label ks rs (u r : Z) : Prop :=
  ∃ j, ks !! j = Some u ∧ rs !! j = Some r.

(** [m] keeps the objects of [hs]: run on a heap that extends [hs], it leaves
    a heap that extends [hs]; and a value it returns satisfies [Q]. *)
Definition keeps {A : Type} hs (m : M A) (Q : A → Prop) : Prop :=
  ∀ h, hs `prefix_of` h →
       hs `prefix_of` (m h).2 ∧ ∀ a, (m h).1 = Ok a → Q a.

(** A reference to an object that [hs] does not hold. *)
Definition fresh hs (r : ref) : Prop := (length hs ≤ r)%nat.

(** ** The frames and columns [prepare_data] and [y_test] compute *)

Definition with_columns f (more : list (string * list cell)) : DataFrame :=
  {| length_original := length_original f; columns := columns f ++ more |}.

Definition max_cycles_column us : list cell :=
  (λ u, Int (wrap64 (Z.of_nat (rows_of_unit u us)))) <$> us.

Definition remaining_cycles_column ks rs us : list cell :=
  indexed ((λ u, position u ks) <$> us) (Int <$> rs).

Definition grouped us : DataFrame :=
  {| length_original := length (remove_dups us);
     columns := [("unit_number", Int <$> remove_dups us);
                 ("max_cycles",
                  (λ u, Int (wrap64 (Z.of_nat (rows_of_unit u us))))
                    <$> remove_dups us)] |}.

Definition RUL_train us ts : list cell :=
  zip_with cell_sub (max_cycles_column us) (Int <$> ts).

Definition RUL_test ks rs us ts : list cell :=
  zip_with cell_sub
    (zip_with cell_add (max_cycles_column us) (remaining_cycles_column ks rs us))
    (Int <$> ts).

(** The label table cell 3 builds from a file of 100 lines. *)
Definition labels_100 lines : DataFrame :=
  {| length_original := length lines;
     columns := [("remaining_cycles", Int <$> lines);
                 ("unit_number", Int <$> seqZ 1 100)] |}.

End Vocabulary.

(** * Example tables *)

Section ExampleTables.
#[local] Existing Instance rational_float64.

(** Two units: unit 1 with cycles 1..5 and unit 2 with cycles 1..3. *)
Definition ex_runs : DataFrame :=
  {| length_original := 8;
     columns :=
       [("unit_number", Int <$> [1; 1; 1; 1; 1; 2; 2; 2]);
        ("time_in_cycles", Int <$> [1; 2; 3; 4; 5; 1; 2; 3]);
        ("setting_1", Float <$> [-7 # 10000; 19 # 10000; -43 # 10000; 7 # 10000;
                                 -19 # 10000; 23 # 10000; -27 # 10000; 3 # 10000]%Q);
        ("T2", Float <$> [51867 # 100; 51867 # 100; 51867 # 100; 51867 # 100;
                          51867 # 100; 51867 # 100; 51867 # 100; 51867 # 100]%Q)] |}.

(** Labels for both units. *)
Definition ex_labels : DataFrame :=
  {| length_original := 2;
     columns := [("remaining_cycles", Int <$> [10; 7]);
                 ("unit_number", Int <$> [1; 2])] |}.

(** A truncated label table: unit 2 has no label. *)
Definition ex_labels_truncated : DataFrame :=
  {| length_original := 1;
     columns := [("remaining_cycles", Int <$> [10]);
                 ("unit_number", Int <$> [1])] |}.

(** Labels that give both units of the run table zero remaining cycles. *)
Definition ex_labels_zero : DataFrame :=
  {| length_original := 3;
     columns := [("remaining_cycles", Int <$> [0; 0; 9]);
                 ("unit_number", Int <$> [1; 2; 3])] |}.

(** Labels with a row for unit 3, which has no run records. *)
Definition ex_labels_extra : DataFrame :=
  {| length_original := 3;
     columns := [("remaining_cycles", Int <$> [10; 7; 7]);
                 ("unit_number", Int <$> [1; 2; 3])] |}.

(** A heap that holds the five tables, at references 0 to 4. *)
Definition ex_heap : heap :=
  [ex_runs; ex_labels; ex_labels_truncated; ex_labels_zero; ex_labels_extra].

(** A test table of the units 1 to 101: two records of unit 1, and one of
    each other unit. *)
Definition ex_test_units : list Z := 1 :: seqZ 1 101.

Definition ex_test_cycles : list Z := [1; 2] ++ replicate 100 1.

Definition ex_test_runs : DataFrame :=
  {| length_original := 102;
     columns :=
       [("unit_number", Int <$> ex_test_units);
        ("time_in_cycles", Int <$> ex_test_cycles);
        ("T2", replicate 102 (Float (51867 # 100)%Q))] |}.

(** A table without a [time_in_cycles] column. *)
Definition ex_runs_no_cycles : DataFrame :=
  {| length_original := 2;
     columns := [("unit_number", Int <$> [1; 1])] |}.

(** A table that already has a [max_cycles] column, and one that already has
    a [remaining_cycles] column. *)
Definition ex_runs_max_cycles : DataFrame :=
  {| length_original := 2;
     columns := [("unit_number", Int <$> [1; 1]);
                 ("time_in_cycles", Int <$> [1; 2]);
                 ("max_cycles", Int <$> [2; 2])] |}.

Definition ex_runs_remaining_cycles : DataFrame :=
  {| length_original := 2;
     columns := [("unit_number", Int <$> [1; 1]);
                 ("time_in_cycles", Int <$> [1; 2]);
                 ("remaining_cycles", Int <$> [10; 10])] |}.

(** A label table with two rows for unit 1. *)
Definition ex_labels_duplicate : DataFrame :=
  {| length_original := 2;
     columns := [("remaining_cycles", Int <$> [10; 7]);
                 ("unit_number", Int <$> [1; 1])] |}.

(** A heap with the train table, the test table and the labels, and a heap
    with the tables [prepare_data] refuses. *)
Definition ex_heap_cells : heap := [ex_runs; ex_test_runs; ex_labels].

Definition ex_heap_refused : heap :=
  [ex_runs; ex_labels; ex_runs_no_cycles; ex_runs_max_cycles;
   ex_runs_remaining_cycles; ex_labels_duplicate].

(** A table with records of units 5 and 7 and none of unit 6, and a table
    with the two key columns and no record. *)
Definition ex_runs_gap : DataFrame :=
  {| length_original := 3;
     columns :=
       [("unit_number", Int <$> [5; 5; 7]);
        ("time_in_cycles", Int <$> [1; 2; 1]);
        ("T2", Float <$> [51867 # 100; 51867 # 100; 51867 # 100]%Q)] |}.

Definition ex_runs_empty : DataFrame :=
  {| length_original := 0;
     columns := [("unit_number", []); ("time_in_cycles", [])] |}.

(** Labels of units 5 and 7; the same units with zero remaining cycles. *)
Definition ex_labels_gap : DataFrame :=
  {| length_original := 2;
     columns := [("remaining_cycles", Int <$> [10; 7]);
                 ("unit_number", Int <$> [5; 7])] |}.

Definition ex_labels_gap_zero : DataFrame :=
  {| length_original := 2;
     columns := [("remaining_cycles", Int <$> [0; 0]);
                 ("unit_number", Int <$> [5; 7])] |}.

(** A heap that holds these four tables, at references 0 to 3. *)
Definition ex_heap_gap : heap :=
  [ex_runs_gap; ex_runs_empty; ex_labels_gap; ex_labels_gap_zero].

(** The lines of a label file of 100 lines, and of one of 2 lines. *)
Definition ex_label_lines : list Z := (λ k, 150 - k) <$> seqZ 1 100.

Definition ex_label_lines_short : list Z := [112; 98].

End ExampleTables.

(** * Verification *)

(** ** Arithmetic modulo 2^64 *)

Lemma wrap64_id (z : Z) : int64 z → wrap64 z = z.
Proof.
  unfold int64, wrap64. intros Hz.
  rewrite Z.mod_small by lia. lia.
Qed.

Lemma wrap64_add_l (a b : Z) : wrap64 (wrap64 a + b) = wrap64 (a + b).
Proof.
  unfold wrap64. f_equal.
  replace ((a + 2 ^ 63) `mod` 2 ^ 64 - 2 ^ 63 + b + 2 ^ 63)
    with ((a + 2 ^ 63) `mod` 2 ^ 64 + b) by lia.
  rewrite Zplus_mod_idemp_l. f_equal. lia.
Qed.

Lemma wrap64_sub_l (a b : Z) : wrap64 (wrap64 a - b) = wrap64 (a - b).
Proof.
  replace (wrap64 a - b) with (wrap64 a + - b) by lia.
  rewrite wrap64_add_l. f_equal; lia.
Qed.


Lemma wrap64_add_sub (a b c : Z) :
  wrap64 (wrap64 (wrap64 a + b) - c) = wrap64 (a + b - c).
Proof.
  rewrite wrap64_sub_l.
  replace (wrap64 a + b - c) with (wrap64 a + (b - c)) by lia.
  rewrite wrap64_add_l. f_equal; lia.
Qed.

(** ** Integer keys *)

(** On integer key columns the key functions are the usual list functions. *)
Section IntKeys.
Context `{FL : Float64}.
Import Frame.

Lemma existsb_key_Int (u : Z) (us : list Z) :
  existsb (key_eqb (Int u)) (Int <$> us) = bool_decide (u ∈ us).
Proof.
  induction us as [|v us IH].
  - symmetry. apply bool_decide_eq_false_2, not_elem_of_nil.
  - rewrite fmap_cons. cbn [existsb key_eqb]. rewrite IH.
    destruct (Z.eqb_spec u v) as [->|Hne]; cbn [orb].
    + symmetry. apply bool_decide_eq_true_2. left.
    + apply bool_decide_ext. rewrite elem_of_cons. intuition congruence.
Qed.

Lemma unique_Int (us : list Z) : unique (Int <$> us) = Int <$> remove_dups us.
Proof.
  induction us as [|u us IH]; simpl; [done|].
  change (list_fmap Z cell Int us) with (Int <$> us).
  rewrite existsb_key_Int, IH.
  destruct (decide_rel elem_of u us) as [Hin|Hin].
  - by rewrite bool_decide_eq_true_2.
  - by rewrite bool_decide_eq_false_2.
Qed.

Lemma has_duplicates_Int (ks : list Z) :
  NoDup ks → has_duplicates (Int <$> ks) = false.
Proof.
  induction 1 as [|k ks Hk _ IH]; simpl; [done|].
  change (list_fmap Z cell Int ks) with (Int <$> ks).
  rewrite existsb_key_Int, IH. by rewrite bool_decide_eq_false_2.
Qed.



Lemma index_of_Int (ks : list Z) (u : Z) :
  index_of (Int <$> ks) (Int u) = position u ks.
Proof.
  unfold position. induction ks as [|k ks IH]; simpl; [done|].
  change (list_fmap Z cell Int ks) with (Int <$> ks).
  rewrite IH. destruct (Z.eqb_spec u k) as [->|Hne].
  - by rewrite decide_True.
  - rewrite decide_False by congruence.
    by destruct (list_find (λ k0, k0 = u) ks) as [[j x]|].
Qed.

Lemma count_group_Int (u : Z) (us ts : list Z) :
  length us = length ts →
  count_group (Int u) (Int <$> us) (Int <$> ts) = rows_of_unit u us.
Proof.
  unfold rows_of_unit. revert ts.
  induction us as [|v us IH]; intros [|t ts] Hlen; simplify_eq/=; [done|].
  change (list_fmap Z cell Int us) with (Int <$> us).
  change (list_fmap Z cell Int ts) with (Int <$> ts).
  rewrite IH by done. rewrite filter_cons.
  destruct (Z.eqb_spec v u) as [->|Hne].
  - by rewrite decide_True.
  - by rewrite decide_False.
Qed.
End IntKeys.

(** ** Consecutive keys *)

Lemma foldr_min_le (z : Z) (zs : list Z) (x : Z) :
  x ∈ z :: zs → foldr Z.min z zs ≤ x.
Proof.
  induction zs as [|y zs IH]; simpl.
  - intros ->%list_elem_of_singleton. lia.
  - rewrite !elem_of_cons. intros [->|[->|Hin]].
    + assert (foldr Z.min z zs ≤ z) by (apply IH; left). lia.
    + lia.
    + assert (foldr Z.min z zs ≤ x) by (apply IH; by right). lia.
Qed.

Lemma foldr_max_ge (z : Z) (zs : list Z) (x : Z) :
  x ∈ z :: zs → x ≤ foldr Z.max z zs.
Proof.
  induction zs as [|y zs IH]; simpl.
  - intros ->%list_elem_of_singleton. lia.
  - rewrite !elem_of_cons. intros [->|[->|Hin]].
    + assert (z ≤ foldr Z.max z zs) by (apply IH; left). lia.
    + lia.
    + assert (x ≤ foldr Z.max z zs) by (apply IH; by right). lia.
Qed.

Lemma foldr_min_elem (z : Z) (zs : list Z) : foldr Z.min z zs ∈ z :: zs.
Proof.
  induction zs as [|y zs IH]; simpl; [left|].
  destruct (Z.min_spec y (foldr Z.min z zs)) as [[_ ->]|[_ ->]].
  - right. left.
  - apply elem_of_cons in IH as [->|Hin]; [left|by do 2 right].
Qed.

Lemma foldr_max_elem (z : Z) (zs : list Z) : foldr Z.max z zs ∈ z :: zs.
Proof.
  induction zs as [|y zs IH]; simpl; [left|].
  destruct (Z.max_spec y (foldr Z.max z zs)) as [[_ ->]|[_ ->]].
  - apply elem_of_cons in IH as [->|Hin]; [left|by do 2 right].
  - right. left.
Qed.

(** Distinct integers without a gap are as many as their range is long. *)
Lemma gap_free_length (z : Z) (zs : list Z) :
  NoDup (z :: zs) → gap_free (z :: zs) →
  foldr Z.max z zs - foldr Z.min z zs + 1 = Z.of_nat (length (z :: zs)).
Proof.
  intros Hnd Hgap.
  set (lo := foldr Z.min z zs). set (hi := foldr Z.max z zs).
  assert (lo ≤ hi) as Hle.
  { assert (z ∈ z :: zs) as Hz by left.
    pose proof (foldr_min_le z zs z Hz). pose proof (foldr_max_ge z zs z Hz).
    unfold lo, hi. lia. }
  assert (z :: zs ≡ₚ seqZ lo (hi - lo + 1)) as Hperm.
  { apply NoDup_Permutation; [done|apply NoDup_seqZ|].
    intros x. rewrite elem_of_seqZ. split.
    - intros Hx. pose proof (foldr_min_le z zs x Hx).
      pose proof (foldr_max_ge z zs x Hx). unfold lo, hi. lia.
    - intros Hx. apply (Hgap lo x hi).
      + apply foldr_min_elem.
      + apply foldr_max_elem.
      + lia. }
  rewrite (Permutation_length Hperm), length_seqZ. lia.
Qed.

Lemma gap_free_remove_dups (us : list Z) :
  gap_free (remove_dups us) ↔ gap_free us.
Proof.
  unfold gap_free. by setoid_rewrite elem_of_remove_dups.
Qed.

(** A check of [gap_free] on a given list. *)
Lemma gap_free_check (lo hi : Z) (us : list Z) :
  Forall (λ u, lo ≤ u ≤ hi) us →
  Forall (λ v, v ∈ us) (seqZ lo (hi - lo + 1)) →
  gap_free us.
Proof.
  rewrite !Forall_forall. intros Hbounds Hall u v w Hu Hw Hv.
  apply Hall, elem_of_seqZ.
  pose proof (Hbounds u Hu). pose proof (Hbounds w Hw). lia.
Qed.


Section ConsecutiveKeys.
Context `{FL : Float64}.
Import Frame.

Lemma int64_values_Int (zs : list Z) : int64_values (Int <$> zs) = Some zs.
Proof.
  induction zs as [|z zs IH]; [done|].
  rewrite fmap_cons. cbn [int64_values]. by rewrite IH.
Qed.

(** The grouped key column of consecutive [int64] keys keeps their type. *)
Lemma grouped_keys_gap_free (us : list Z) :
  gap_free us →
  grouped_keys (Int <$> remove_dups us) = Int <$> remove_dups us.
Proof.
  intros Hgap. unfold grouped_keys. rewrite int64_values_Int.
  destruct (remove_dups us) as [|z zs] eqn:Hds; [done|].
  rewrite decide_True; [done|].
  apply gap_free_length.
  - rewrite <- Hds. apply NoDup_remove_dups.
  - rewrite <- Hds. by apply gap_free_remove_dups.
Qed.


Lemma width_mismatch_Int (us ks : list Z) :
  width_mismatch (Int <$> us) (Int <$> ks) = false.
Proof. by destruct us, ks. Qed.

Lemma remove_dups_nonempty (us : list Z) : us ≠ [] → remove_dups us ≠ [].
Proof.
  destruct us as [|u us]; [done|]. intros _ Hnil.
  assert (u ∈ remove_dups (u :: us)) as Hin by (apply elem_of_remove_dups; left).
  rewrite Hnil in Hin. by apply elem_of_nil in Hin.
Qed.

End ConsecutiveKeys.

(** ** Columns by name *)

Section Columns.
Context `{FL : Float64}.
Import Frame.
Implicit Types (cols more : list (string * list cell)) (name : string).

Lemma lookup_column_app_l name cols more c :
  lookup_column name cols = Some c → lookup_column name (cols ++ more) = Some c.
Proof.
  induction cols as [|d cols IH]; simpl; [done|].
  destruct (decide (d.1 = name)); auto.
Qed.

Lemma lookup_column_app_r name cols more :
  name ∉ cols.*1 → lookup_column name (cols ++ more) = lookup_column name more.
Proof.
  induction cols as [|d cols IH]; simpl; [done|].
  rewrite not_elem_of_cons. intros [Hne Hnot].
  rewrite decide_False by done. auto.
Qed.

Lemma lookup_column_Some name cols c :
  lookup_column name cols = Some c → (name, c) ∈ cols.
Proof.
  induction cols as [|[n d] cols IH]; simpl; [done|].
  destruct (decide (n = name)) as [->|Hne].
  - intros [= ->]. left.
  - intros Hc. right. auto.
Qed.

Lemma set_column_fresh name vals cols :
  name ∉ cols.*1 → set_column name vals cols = cols ++ [(name, vals)].
Proof.
  induction cols as [|d cols IH]; simpl; [done|].
  rewrite not_elem_of_cons. intros [Hne Hnot].
  rewrite decide_False by done. by rewrite IH.
Qed.

Lemma filter_columns_fresh name cols :
  name ∉ cols.*1 → filter (λ c, c.1 ≠ name) cols = cols.
Proof.
  induction cols as [|d cols IH]; simpl; [done|].
  rewrite not_elem_of_cons. intros [Hne Hnot].
  rewrite filter_cons, decide_True by done. by rewrite IH.
Qed.

Lemma well_formed_column (f : DataFrame) name c :
  well_formed f → column f name = Some c → length c = length_original f.
Proof.
  unfold well_formed, column. intros [_ Hwf] Hc.
  apply lookup_column_Some in Hc.
  rewrite Forall_forall in Hwf. apply (Hwf _ Hc).
Qed.

(** A well-formed frame with the schema of cell 3, integer unit and cycle
    columns, a record, and consecutive unit numbers is a run table. *)
Lemma run_table_of_schema (f : DataFrame) (us ts : list Z) :
  get_column_names f = column_names →
  well_formed f →
  column f "unit_number" = Some (Int <$> us) →
  column f "time_in_cycles" = Some (Int <$> ts) →
  us ≠ [] → gap_free us →
  run_table f us ts.
Proof.
  intros Hnames Hwf Hu Ht Hne Hgap. unfold run_table. rewrite Hnames.
  do 3 (split; [assumption|]).
  do 3 (split; [refine (bool_decide_unpack _ _); vm_compute; exact I|]).
  done.
Qed.

End Columns.

(** ** Rows of the label table *)

Lemma position_Some (u : Z) (ks : list Z) :
  u ∈ ks → ∃ j, position u ks = Some j ∧ ks !! j = Some u.
Proof.
  intros Hin. unfold position.
  destruct (list_find_elem_of (λ k, k = u) ks u Hin eq_refl) as [[j k] Hfind].
  rewrite Hfind. apply list_find_Some in Hfind as (Hj & -> & _).
  by exists j.
Qed.

Lemma position_None (u : Z) (ks : list Z) : u ∉ ks → position u ks = None.
Proof.
  intros Hnot. unfold position.
  destruct (list_find (λ k, k = u) ks) as [[j k]|] eqn:Hfind; [|done].
  apply list_find_Some in Hfind as (Hj & -> & _).
  destruct Hnot. by eapply list_elem_of_lookup_2.
Qed.

Lemma position_lookup (ks : list Z) (j : nat) (u : Z) :
  NoDup ks → ks !! j = Some u → position u ks = Some j.
Proof.
  intros Hnd Hj.
  destruct (position_Some u ks) as (j' & Hpos & Hj').
  { by eapply list_elem_of_lookup_2. }
  rewrite Hpos. f_equal. by eapply NoDup_lookup.
Qed.

(** ** The steps of [prepare_data] on a run table *)

Section Steps.
Context `{FL : Float64}.
Import Frame.

Lemma run_table_lengths (f : DataFrame) (us ts : list Z) :
  run_table f us ts →
  length us = length_original f ∧ length ts = length_original f.
Proof.
  intros (Hwf & Hu & Ht & _).
  apply (well_formed_column _ _ _ Hwf) in Hu, Ht.
  rewrite length_fmap in Hu, Ht. done.
Qed.

Lemma groupby_run_table (f : DataFrame) (us ts : list Z) :
  run_table f us ts →
  groupby_agg_count f "unit_number" "max_cycles" "time_in_cycles" = Ok (grouped us).
Proof.
  intros Hrun. destruct (run_table_lengths _ _ _ Hrun) as [Hlu Hlt].
  destruct Hrun as (_ & Hu & Ht & _ & _ & _ & _ & Hgap).
  unfold groupby_agg_count, getitem. rewrite Hu, Ht. simpl.
  rewrite unique_Int, length_fmap, (grouped_keys_gap_free _ Hgap).
  unfold grouped. do 3 f_equal.
  rewrite <- list_fmap_compose. do 2 f_equal. apply list_fmap_ext.
  intros _ u _. simpl. rewrite count_group_Int; [done|lia].
Qed.

Lemma indexed_fmap (g : Z → cell) (G us : list Z) :
  (∀ u, u ∈ us → u ∈ G) →
  indexed (index_of (Int <$> G) <$> (Int <$> us)) (g <$> G) = g <$> us.
Proof.
  intros Hsub. unfold indexed. rewrite <- !list_fmap_compose.
  apply list_fmap_ext. intros _ u Hu%list_elem_of_lookup_2. simpl.
  rewrite index_of_Int.
  destruct (position_Some u G (Hsub u Hu)) as (j & -> & Hj).
  by rewrite list_lookup_fmap, Hj.
Qed.

Lemma join_grouped (f : DataFrame) (us ts : list Z) :
  run_table f us ts →
  join f (grouped us) "unit_number"
  = Ok (with_columns f [("max_cycles", max_cycles_column us)]).
Proof.
  intros (_ & Hu & _ & Hmax & _ & _ & Hne & _). unfold join.
  replace (list_find _ (get_column_names (grouped us))) with
    (@None (nat * string)).
  2:{ symmetry. apply list_find_None. unfold get_column_names. simpl.
      repeat constructor; intros [H1 H2]; done. }
  unfold getitem. rewrite Hu. simpl.
  rewrite decide_False.
  2:{ rewrite length_fmap. intros Hlen%nil_length_inv.
      by apply (remove_dups_nonempty us). }
  rewrite has_duplicates_Int by apply NoDup_remove_dups.
  rewrite width_mismatch_Int.
  rewrite indexed_fmap; [done|]. intros u Hu'. by apply elem_of_remove_dups.
Qed.

Lemma names_with_columns (f : DataFrame) (more : list (string * list cell)) :
  get_column_names (with_columns f more) = get_column_names f ++ more.*1.
Proof. unfold get_column_names. simpl. apply fmap_app. Qed.

Lemma column_with_columns_l (f : DataFrame) more name c :
  column f name = Some c → column (with_columns f more) name = Some c.
Proof. apply lookup_column_app_l. Qed.

Lemma column_with_columns_r (f : DataFrame) more name :
  name ∉ get_column_names f →
  column (with_columns f more) name = lookup_column name more.
Proof. apply lookup_column_app_r. Qed.

Lemma setitem_train (f : DataFrame) (us ts : list Z) :
  run_table f us ts →
  setitem (with_columns f [("max_cycles", max_cycles_column us)]) "RUL"
    (Sub (Col "max_cycles") (Col "time_in_cycles"))
  = Ok (with_columns f
          [("max_cycles", max_cycles_column us);
           ("RUL", zip_with cell_sub (max_cycles_column us) (Int <$> ts))]).
Proof.
  intros (_ & _ & Ht & Hmax & _ & Hrul & _). unfold setitem. simpl.
  rewrite (column_with_columns_r _ _ _ Hmax).
  rewrite (column_with_columns_l _ _ _ _ Ht). simpl.
  rewrite set_column_fresh.
  - unfold with_columns. simpl. by rewrite <- app_assoc.
  - rewrite fmap_app. simpl. rewrite elem_of_app, list_elem_of_singleton.
    intros [?|?]; done.
Qed.

Lemma drop_train (f : DataFrame) (us ts : list Z) (mc rul : list cell) :
  run_table f us ts →
  drop (with_columns f [("max_cycles", mc); ("RUL", rul)]) ["max_cycles"]
  = Ok (with_columns f [("RUL", rul)]).
Proof.
  intros (_ & _ & _ & Hmax & _). simpl.
  rewrite decide_True.
  2:{ rewrite names_with_columns. apply elem_of_app. right. simpl. left. }
  unfold remove_column, with_columns. simpl.
  rewrite filter_app, (filter_columns_fresh _ _ Hmax). done.
Qed.

Lemma join_labels (f y : DataFrame) (us ts ks rs : list Z) (mc : list cell) :
  run_table f us ts → label_table y ks rs →
  join (with_columns f [("max_cycles", mc)]) y "unit_number"
  = Ok (with_columns f
          [("max_cycles", mc);
           ("remaining_cycles", remaining_cycles_column ks rs us)]).
Proof.
  intros (_ & Hu & _ & Hmax & Hrem & _) (Hy & Hlen & Hnd & Hne). unfold join.
  assert (get_column_names y = ["remaining_cycles"; "unit_number"]) as ->.
  { unfold get_column_names. by rewrite Hy. }
  replace (list_find _ ["remaining_cycles"; "unit_number"])
    with (@None (nat * string)).
  2:{ symmetry. apply list_find_None.
      repeat constructor; intros [H1 H2]; [|done].
      rewrite names_with_columns in H2. simpl in H2.
      rewrite elem_of_app, list_elem_of_singleton in H2.
      destruct H2; done. }
  unfold getitem. rewrite (column_with_columns_l _ _ _ _ Hu).
  unfold column. rewrite Hy. simpl.
  rewrite decide_False.
  2:{ rewrite length_fmap. by intros Hnil%nil_length_inv. }
  rewrite has_duplicates_Int by done.
  rewrite width_mismatch_Int.
  unfold with_columns. simpl. rewrite <- app_assoc. simpl.
  unfold remaining_cycles_column. do 7 f_equal.
  rewrite <- list_fmap_compose. apply list_fmap_ext.
  intros _ u _. simpl. apply index_of_Int.
Qed.

Lemma setitem_test (f : DataFrame) (us ts : list Z) (mc rem : list cell) :
  run_table f us ts →
  setitem (with_columns f [("max_cycles", mc); ("remaining_cycles", rem)]) "RUL"
    (Sub (Add (Col "max_cycles") (Col "remaining_cycles")) (Col "time_in_cycles"))
  = Ok (with_columns f
          [("max_cycles", mc); ("remaining_cycles", rem);
           ("RUL", zip_with cell_sub (zip_with cell_add mc rem) (Int <$> ts))]).
Proof.
  intros (_ & _ & Ht & Hmax & Hrem & Hrul & _). unfold setitem. simpl.
  rewrite (column_with_columns_r _ _ _ Hmax).
  rewrite (column_with_columns_r _ _ _ Hrem).
  rewrite (column_with_columns_l _ _ _ _ Ht). simpl.
  rewrite set_column_fresh.
  - unfold with_columns. simpl. by rewrite <- app_assoc.
  - rewrite fmap_app. simpl. rewrite elem_of_app.
    intros [?|Hin]; [done|].
    repeat (apply elem_of_cons in Hin as [Hin|Hin]; [discriminate Hin|]).
    by apply elem_of_nil in Hin.
Qed.

Lemma drop_test (f : DataFrame) (us ts : list Z) (mc rem rul : list cell) :
  run_table f us ts →
  drop (with_columns f [("max_cycles", mc); ("remaining_cycles", rem); ("RUL", rul)])
    ["remaining_cycles"; "max_cycles"]
  = Ok (with_columns f [("RUL", rul)]).
Proof.
  intros (_ & _ & _ & Hmax & Hrem & _). simpl.
  rewrite decide_True.
  2:{ rewrite names_with_columns. apply elem_of_app. right. simpl.
      right. left. }
  rewrite decide_True.
  2:{ unfold get_column_names, remove_column, with_columns. simpl.
      rewrite filter_app, fmap_app. apply elem_of_app. right. left. }
  unfold remove_column, with_columns. simpl.
  rewrite !filter_app, !list_filter_filter.
  f_equal. f_equal.
  rewrite <- (filter_columns_fresh "max_cycles" (columns f)) at 2 by done.
  rewrite <- (filter_columns_fresh "remaining_cycles" (columns f)) at 2 by done.
  rewrite list_filter_filter. done.
Qed.

End Steps.

(** ** Running [prepare_data] on a run table *)

Section Heap.
Context `{FL : Float64}.
Import Frame.
Implicit Types (h : heap) (f g : DataFrame) (r : ref).

Lemma lookup_snoc h f : (h ++ [f]) !! length h = Some f.
Proof. by apply list_lookup_middle. Qed.

Lemma lookup_snoc_lt h f r g : h !! r = Some g → (h ++ [f]) !! r = Some g.
Proof. apply lookup_app_l_Some. Qed.

Lemma insert_snoc h f g : <[length h := g]> (h ++ [f]) = h ++ [g].
Proof.
  rewrite insert_app_r_alt by lia. by rewrite Nat.sub_diag.
Qed.

Lemma bind_ok {A B : Type} (m : M A) (k : A → M B) h a h' :
  m h = (Ok a, h') → (m ≫= k) h = k a h'.
Proof. intros Hm. unfold mbind, M_bind. by rewrite Hm. Qed.

Lemma copy_ok h r f :
  h !! r = Some f → vaex.copy r h = (Ok (length h), h ++ [f]).
Proof. intros Hr. unfold vaex.copy, vaex.deref, mbind, M_bind. by rewrite Hr. Qed.

Lemma groupby_agg_count_ok h r f g by_ name of_ :
  h !! r = Some f →
  groupby_agg_count f by_ name of_ = Ok g →
  vaex.groupby_agg_count r by_ name of_ h = (Ok (length h), h ++ [g]).
Proof.
  intros Hr Hg.
  unfold vaex.groupby_agg_count, vaex.deref, vaex.lift, mbind, M_bind.
  by rewrite Hr, Hg.
Qed.

Lemma join_ok h r o f g j on :
  h !! r = Some f → h !! o = Some g →
  join f g on = Ok j →
  vaex.join r o on h = (Ok (length h), h ++ [j]).
Proof.
  intros Hr Ho Hj. unfold vaex.join, vaex.deref, vaex.lift, mbind, M_bind.
  by rewrite Hr, Ho, Hj.
Qed.

Lemma setitem_last h f f' name e :
  setitem f name e = Ok f' →
  vaex.setitem (length h) name e (h ++ [f]) = (Ok (), h ++ [f']).
Proof.
  intros Hf. unfold vaex.setitem, vaex.deref, vaex.lift, vaex.store, mbind, M_bind.
  by rewrite lookup_snoc, Hf, insert_snoc.
Qed.

Lemma add_column_last h f f' name vals :
  add_column f name vals = Ok f' →
  vaex.add_column (length h) name vals (h ++ [f]) = (Ok (), h ++ [f']).
Proof.
  intros Hf. unfold vaex.add_column, vaex.deref, vaex.lift, vaex.store, mbind, M_bind.
  by rewrite lookup_snoc, Hf, insert_snoc.
Qed.

Lemma drop_ok h r f d names :
  h !! r = Some f →
  drop f names = Ok d →
  vaex.drop r names h = (Ok (length h), h ++ [d]).
Proof.
  intros Hr Hd. unfold vaex.drop, vaex.deref, vaex.lift, mbind, M_bind.
  by rewrite Hr, Hd.
Qed.

Lemma run_prepare_data_train h data f us ts :
  h !! data = Some f → run_table f us ts →
  returns (prepare_data data None) h (with_columns f [("RUL", RUL_train us ts)]).
Proof.
  intros Hdata Hrun. eexists _, _. split.
  - unfold prepare_data.
    erewrite bind_ok by (by apply copy_ok).
    erewrite bind_ok
      by (eapply groupby_agg_count_ok;
          [apply lookup_snoc | apply (groupby_run_table _ _ _ Hrun)]).
    erewrite bind_ok
      by (eapply join_ok;
          [apply lookup_snoc_lt, lookup_snoc | apply lookup_snoc
          | apply (join_grouped _ _ _ Hrun)]).
    erewrite bind_ok by (eapply setitem_last, (setitem_train _ _ _ Hrun)).
    erewrite bind_ok by (eapply drop_ok; [apply lookup_snoc | apply (drop_train _ _ _ _ _ Hrun)]).
    reflexivity.
  - apply lookup_snoc.
Qed.

Lemma run_prepare_data_test h data y f yf us ts ks rs :
  h !! data = Some f → h !! y = Some yf →
  run_table f us ts → label_table yf ks rs →
  returns (prepare_data data (Some y)) h
    (with_columns f [("RUL", RUL_test ks rs us ts)]).
Proof.
  intros Hdata Hy Hrun Hlab. eexists _, _. split.
  - unfold prepare_data.
    erewrite bind_ok by (by apply copy_ok).
    erewrite bind_ok
      by (eapply groupby_agg_count_ok;
          [apply lookup_snoc | apply (groupby_run_table _ _ _ Hrun)]).
    erewrite bind_ok
      by (eapply join_ok;
          [apply lookup_snoc_lt, lookup_snoc | apply lookup_snoc
          | apply (join_grouped _ _ _ Hrun)]).
    erewrite bind_ok
      by (eapply join_ok;
          [apply lookup_snoc
          | by do 3 apply lookup_snoc_lt
          | apply (join_labels _ _ _ _ _ _ _ Hrun Hlab)]).
    erewrite bind_ok by (eapply setitem_last, (setitem_test _ _ _ _ _ Hrun)).
    erewrite bind_ok by (eapply drop_ok; [apply lookup_snoc | apply (drop_test _ _ _ _ _ _ Hrun)]).
    reflexivity.
  - apply lookup_snoc.
Qed.

End Heap.

(** ** The RUL of one row *)

Section RowRUL.
Context `{FL : Float64}.
Import Frame.
Implicit Types (h : heap) (f out : DataFrame) (data y : ref) (us ts ks rs : list Z).

Lemma max_cycles_column_lookup us i u :
  us !! i = Some u →
  max_cycles_column us !! i = Some (Int (wrap64 (Z.of_nat (rows_of_unit u us)))).
Proof. intros Hu. unfold max_cycles_column. by rewrite list_lookup_fmap, Hu. Qed.

Lemma remaining_cycles_column_lookup ks rs us i u :
  us !! i = Some u →
  remaining_cycles_column ks rs us !! i
  = Some match position u ks with
         | Some j => default NA (Int <$> rs !! j)
         | None => NA
         end.
Proof.
  intros Hu. unfold remaining_cycles_column, indexed.
  rewrite !list_lookup_fmap, Hu. simpl.
  destruct (position u ks) as [j|]; [|done]. by rewrite list_lookup_fmap.
Qed.

Lemma RUL_train_lookup us ts i u t :
  us !! i = Some u → ts !! i = Some t →
  RUL_train us ts !! i
  = Some (Int (wrap64 (Z.of_nat (rows_of_unit u us) - t))).
Proof.
  intros Hu Ht. unfold RUL_train.
  rewrite lookup_zip_with, (max_cycles_column_lookup _ _ _ Hu).
  rewrite list_lookup_fmap, Ht. simpl. by rewrite wrap64_sub_l.
Qed.

Lemma RUL_test_lookup ks rs us ts i u t j r :
  us !! i = Some u → ts !! i = Some t →
  position u ks = Some j → rs !! j = Some r →
  RUL_test ks rs us ts !! i
  = Some (Int (wrap64 (Z.of_nat (rows_of_unit u us) + r - t))).
Proof.
  intros Hu Ht Hj Hr. unfold RUL_test.
  rewrite !lookup_zip_with, (max_cycles_column_lookup _ _ _ Hu).
  rewrite (remaining_cycles_column_lookup _ _ _ _ _ Hu), Hj, Hr.
  rewrite list_lookup_fmap, Ht. simpl.
  by rewrite wrap64_add_sub.
Qed.

Lemma RUL_test_lookup_unlabelled ks rs us ts i u t :
  us !! i = Some u → ts !! i = Some t →
  position u ks = None →
  RUL_test ks rs us ts !! i = Some NA.
Proof.
  intros Hu Ht Hj. unfold RUL_test.
  rewrite !lookup_zip_with, (max_cycles_column_lookup _ _ _ Hu).
  rewrite (remaining_cycles_column_lookup _ _ _ _ _ Hu), Hj.
  by rewrite list_lookup_fmap, Ht.
Qed.

Lemma cell_at_RUL f us ts rul i :
  run_table f us ts →
  cell_at (with_columns f [("RUL", rul)]) "RUL" i = rul !! i.
Proof.
  intros (_ & _ & _ & _ & _ & Hrul & _). unfold cell_at.
  by rewrite (column_with_columns_r _ _ _ Hrul).
Qed.

(** C1, as the code has it.  Train variant, on a table that has a record and
    whose unit numbers are consecutive integers: in the output of
    [prepare_data] the RUL of a row is the number of rows of its unit
    (max_cycles) minus its time_in_cycles, whenever that difference is a
    64-bit integer. *)
Theorem prepare_data_train_RUL h data f us ts i u t :
  h !! data = Some f → run_table f us ts →
  us !! i = Some u → ts !! i = Some t →
  int64 (Z.of_nat (rows_of_unit u us) - t) →
  ∃ out, returns (prepare_data data None) h out ∧
         cell_at out "RUL" i = Some (Int (Z.of_nat (rows_of_unit u us) - t)).
Proof.
  intros Hdata Hrun Hu Ht Hfit. eexists. split.
  - by eapply run_prepare_data_train.
  - rewrite (cell_at_RUL _ _ _ _ _ Hrun), (RUL_train_lookup _ _ _ _ _ Hu Ht).
    by rewrite wrap64_id.
Qed.

(** C2, as the code has it.  Test variant, on a table that has a record and
    whose unit numbers are consecutive integers: for a row whose unit has a
    label, the RUL is the number of rows of its unit (max_cycles) plus the
    unit's remaining_cycles minus the row's time_in_cycles, whenever that
    value is a 64-bit integer. *)
Theorem prepare_data_test_RUL h data y f yf us ts ks rs i u t j r :
  h !! data = Some f → h !! y = Some yf →
  run_table f us ts → label_table yf ks rs →
  us !! i = Some u → ts !! i = Some t →
  ks !! j = Some u → rs !! j = Some r →
  int64 (Z.of_nat (rows_of_unit u us) + r - t) →
  ∃ out, returns (prepare_data data (Some y)) h out ∧
         cell_at out "RUL" i = Some (Int (Z.of_nat (rows_of_unit u us) + r - t)).
Proof.
  intros Hdata Hy Hrun Hlab Hu Ht Hj Hr Hfit. eexists. split.
  - by eapply run_prepare_data_test.
  - destruct Hlab as (_ & _ & Hnd & _).
    rewrite (cell_at_RUL _ _ _ _ _ Hrun).
    rewrite (RUL_test_lookup _ _ _ _ _ _ _ _ _ Hu Ht (position_lookup _ _ _ Hnd Hj) Hr).
    by rewrite wrap64_id.
Qed.

(** C3, as the code has it.  Test variant, on a table whose unit numbers are
    consecutive integers and a label table that has a row: a run record whose
    unit has no label does not stop [prepare_data]; it returns, and the RUL of
    that record is a missing value. *)
Theorem prepare_data_missing_label h data y f yf us ts ks rs i u :
  h !! data = Some f → h !! y = Some yf →
  run_table f us ts → label_table yf ks rs →
  us !! i = Some u → u ∉ ks →
  ∃ out, returns (prepare_data data (Some y)) h out ∧
         cell_at out "RUL" i = Some NA.
Proof.
  intros Hdata Hy Hrun Hlab Hu Hnot. eexists. split.
  - by eapply run_prepare_data_test.
  - destruct (run_table_lengths _ _ _ Hrun) as [Hlu Hlt].
    destruct (lookup_lt_is_Some_2 ts i) as [t Ht].
    { apply lookup_lt_Some in Hu. lia. }
    rewrite (cell_at_RUL _ _ _ _ _ Hrun).
    by eapply RUL_test_lookup_unlabelled, position_None.
Qed.

End RowRUL.

(** ** Rows and columns of the output *)

Section Shape.
Context `{FL : Float64}.
Import Frame.
Implicit Types (h : heap) (f out : DataFrame) (data : ref) (us ts ks rs : list Z).

Lemma length_max_cycles_column us : length (max_cycles_column us) = length us.
Proof. apply length_fmap. Qed.

Lemma length_remaining_cycles_column ks rs us :
  length (remaining_cycles_column ks rs us) = length us.
Proof. unfold remaining_cycles_column, indexed. by rewrite !length_fmap. Qed.

Lemma length_RUL_train f us ts :
  run_table f us ts → length (RUL_train us ts) = length_original f.
Proof.
  intros [Hlu Hlt]%run_table_lengths. unfold RUL_train.
  rewrite length_zip_with, length_max_cycles_column, length_fmap. lia.
Qed.

Lemma length_RUL_test f us ts ks rs :
  run_table f us ts → length (RUL_test ks rs us ts) = length_original f.
Proof.
  intros [Hlu Hlt]%run_table_lengths. unfold RUL_test.
  rewrite !length_zip_with, length_max_cycles_column,
    length_remaining_cycles_column, length_fmap. lia.
Qed.

Lemma run_prepare_data h data y f us ts :
  h !! data = Some f → run_table f us ts → labels_present h y →
  ∃ rul, length rul = length_original f ∧
         returns (prepare_data data y) h (with_columns f [("RUL", rul)]).
Proof.
  intros Hdata Hrun Hy. destruct y as [y|].
  - destruct Hy as (yf & ks & rs & Hy & Hlab).
    exists (RUL_test ks rs us ts). split.
    + by eapply length_RUL_test.
    + by eapply run_prepare_data_test.
  - exists (RUL_train us ts). split.
    + by eapply length_RUL_train.
    + by eapply run_prepare_data_train.
Qed.

(** C4, as the code has it.  On a table that has a record and whose unit
    numbers are consecutive integers, the output of [prepare_data] has as many
    rows as the run table, in both variants, and every column of the output
    has that many cells. *)
Theorem prepare_data_row_count h data y f us ts :
  h !! data = Some f → run_table f us ts → labels_present h y →
  ∃ out, returns (prepare_data data y) h out ∧
         length_original out = length_original f ∧
         well_formed out.
Proof.
  intros Hdata Hrun Hy.
  destruct (run_prepare_data _ _ _ _ _ _ Hdata Hrun Hy) as (rul & Hlen & Hret).
  eexists. split; [exact Hret|]. split; [done|].
  destruct Hrun as ([Hn Hwf] & _). split; [done|].
  unfold with_columns. simpl. apply Forall_app. split; [done|].
  by repeat constructor.
Qed.

(** C5, as the code has it.  On a table that has a record and whose unit
    numbers are consecutive integers, the columns of the output of
    [prepare_data] are the columns of the run table followed by the one new
    column RUL; max_cycles and remaining_cycles are not among them. *)
Theorem prepare_data_columns h data y f us ts :
  h !! data = Some f → run_table f us ts → labels_present h y →
  ∃ out, returns (prepare_data data y) h out ∧
         get_column_names out = get_column_names f ++ ["RUL"] ∧
         ("max_cycles" ∉ get_column_names out) ∧
         ("remaining_cycles" ∉ get_column_names out).
Proof.
  intros Hdata Hrun Hy.
  destruct (run_prepare_data _ _ _ _ _ _ Hdata Hrun Hy) as (rul & Hlen & Hret).
  eexists. split; [exact Hret|].
  destruct Hrun as (_ & _ & _ & Hmax & Hrem & _).
  rewrite names_with_columns. simpl.
  split; [done|].
  split; rewrite elem_of_app, list_elem_of_singleton; intros [?|?]; done.
Qed.


End Shape.

(** ** Well-formed inputs *)

Lemma elem_of_cycles_of (u t : Z) (us ts : list Z) :
  t ∈ cycles_of u us ts ↔ ∃ j, us !! j = Some u ∧ ts !! j = Some t.
Proof.
  unfold cycles_of. rewrite list_elem_of_fmap. split.
  - intros ([u' t'] & -> & Hin). apply list_elem_of_filter in Hin as [Hu Hin].
    simpl in *. subst u'.
    apply elem_of_lookup_zip_with in Hin as (j & x & z & [= -> ->] & Hx & Hz).
    by exists j.
  - intros (j & Hu & Ht). exists (u, t). split; [done|].
    apply list_elem_of_filter. split; [done|].
    apply elem_of_lookup_zip_with. by exists j, u, t.
Qed.

Lemma rows_of_unit_le (u : Z) (us : list Z) :
  (rows_of_unit u us ≤ length us)%nat.
Proof. apply length_filter. Qed.

Lemma rows_of_unit_pos (u : Z) (us : list Z) :
  u ∈ us → (0 < rows_of_unit u us)%nat.
Proof.
  intros Hin. unfold rows_of_unit.
  assert (u ∈ filter (λ v, v = u) us) as Hf by (by apply list_elem_of_filter).
  destruct (filter (λ v, v = u) us); [by apply elem_of_nil in Hf|simpl; lia].
Qed.

Lemma cycle_bounds (us ts : list Z) (i : nat) (u t : Z) :
  contiguous_from_1 us ts →
  us !! i = Some u → ts !! i = Some t →
  1 ≤ t ≤ Z.of_nat (rows_of_unit u us).
Proof.
  intros Hc Hu Ht.
  assert (t ∈ cycles_of u us ts) as Hin by (apply elem_of_cycles_of; eauto).
  rewrite (Hc u) in Hin. apply elem_of_seqZ in Hin. lia.
Qed.

Lemma last_record_cycle (us ts : list Z) (i : nat) (u t : Z) :
  contiguous_from_1 us ts →
  last_record us ts i u t →
  t = Z.of_nat (rows_of_unit u us).
Proof.
  intros Hc (Hu & Ht & Hmax).
  pose proof (cycle_bounds _ _ _ _ _ Hc Hu Ht) as Hb.
  assert (Z.of_nat (rows_of_unit u us) ∈ cycles_of u us ts) as Hin.
  { rewrite (Hc u). apply elem_of_seqZ.
    pose proof (rows_of_unit_pos u us (list_elem_of_lookup_2 _ _ _ Hu)). lia. }
  apply elem_of_cycles_of in Hin as (j & Hj & Hjt).
  specialize (Hmax _ _ Hj Hjt). lia.
Qed.

Section WellFormed.
Context `{FL : Float64}.
Import Frame.
Implicit Types (h : heap) (f out : DataFrame) (data : ref) (us ts ks rs : list Z).

(** C6, as the code has it.  Train variant, on a table whose unit numbers are
    consecutive integers, each unit's cycles contiguous from 1: the record of
    a unit with the greatest time_in_cycles has RUL 0. *)
Theorem prepare_data_last_record h data f us ts i u t :
  h !! data = Some f → run_table f us ts →
  contiguous_from_1 us ts →
  last_record us ts i u t →
  ∃ out, returns (prepare_data data None) h out ∧
         cell_at out "RUL" i = Some (Int 0).
Proof.
  intros Hdata Hrun Hc Hlast. eexists. split.
  - by eapply run_prepare_data_train.
  - pose proof (last_record_cycle _ _ _ _ _ Hc Hlast) as ->.
    destruct Hlast as (Hu & Ht & _).
    rewrite (cell_at_RUL _ _ _ _ _ Hrun), (RUL_train_lookup _ _ _ _ _ Hu Ht).
    by rewrite Z.sub_diag.
Qed.

(** C7, as the code has it.  On a well-formed input (each unit's cycles
    contiguous from 1 and, in the test variant, every unit labelled with
    remaining_cycles at least 0) that has a record and whose unit numbers are
    consecutive integers, every RUL is an integer that is at least 0, and in
    the train variant the last record of each unit has RUL exactly 0. *)
Theorem prepare_data_RUL_nonnegative h data y f us ts :
  h !! data = Some f → run_table f us ts →
  contiguous_from_1 us ts →
  labels_nonnegative h y us →
  ∃ out, returns (prepare_data data y) h out ∧
         (∀ i, (i < length_original f)%nat →
               ∃ z, cell_at out "RUL" i = Some (Int z) ∧ 0 ≤ z) ∧
         (y = None → ∀ i u t, last_record us ts i u t →
               cell_at out "RUL" i = Some (Int 0)).
Proof.
  intros Hdata Hrun Hc Hy.
  destruct (run_table_lengths _ _ _ Hrun) as [Hlu Hlt].
  assert (Z.of_nat (length us) < 2 ^ 63) as Hsmall.
  { destruct Hrun as ([Hn _] & _). lia. }
  destruct y as [y|].
  - destruct Hy as (yf & ks & rs & Hy & Hlab & Hlabels).
    eexists. split; [by eapply run_prepare_data_test|]. split; [|done].
    intros i Hi.
    destruct (lookup_lt_is_Some_2 us i) as [u Hu]; [lia|].
    destruct (lookup_lt_is_Some_2 ts i) as [t Ht]; [lia|].
    destruct (Hlabels u) as (j & r & Hj & Hr & Hr0 & Hfit).
    { by eapply list_elem_of_lookup_2. }
    pose proof (cycle_bounds _ _ _ _ _ Hc Hu Ht) as Hb.
    exists (Z.of_nat (rows_of_unit u us) + r - t).
    split; [|lia].
    destruct Hlab as (Hcols & Hlen & Hnd & _).
    rewrite (cell_at_RUL _ _ _ _ _ Hrun).
    rewrite (RUL_test_lookup _ _ _ _ _ _ _ _ _ Hu Ht (position_lookup _ _ _ Hnd Hj) Hr).
    rewrite wrap64_id; [done|]. unfold int64 in *. lia.
  - eexists. split; [by eapply run_prepare_data_train|]. split.
    + intros i Hi.
      destruct (lookup_lt_is_Some_2 us i) as [u Hu]; [lia|].
      destruct (lookup_lt_is_Some_2 ts i) as [t Ht]; [lia|].
      pose proof (cycle_bounds _ _ _ _ _ Hc Hu Ht) as Hb.
      pose proof (rows_of_unit_le u us) as Hle.
      exists (Z.of_nat (rows_of_unit u us) - t). split; [|lia].
      rewrite (cell_at_RUL _ _ _ _ _ Hrun), (RUL_train_lookup _ _ _ _ _ Hu Ht).
      rewrite wrap64_id; [done|]. unfold int64. lia.
    + intros _ i u t Hlast.
      pose proof (last_record_cycle _ _ _ _ _ Hc Hlast) as ->.
      destruct Hlast as (Hu & Ht & _).
      rewrite (cell_at_RUL _ _ _ _ _ Hrun), (RUL_train_lookup _ _ _ _ _ Hu Ht).
      by rewrite Z.sub_diag.
Qed.

End WellFormed.

(** ** Frame effects *)

Section Purity.
Context `{FL : Float64}.
Import Frame.
Implicit Types (h hs : heap) (f : DataFrame) (r : ref).

Lemma keeps_ret {A : Type} hs (a : A) (Q : A → Prop) : Q a → keeps hs (mret a) Q.
Proof. intros Ha h Hh. split; [done|]. by intros ? [= <-]. Qed.

Lemma keeps_bind {A B : Type} hs (m : M A) (k : A → M B) Q R :
  keeps hs m Q → (∀ a, Q a → keeps hs (k a) R) → keeps hs (m ≫= k) R.
Proof.
  intros Hm Hk h Hh. destruct (Hm h Hh) as [Hpre HQ].
  unfold mbind, M_bind. destruct (m h) as [[a|e] h1]; simpl in *.
  - by apply (Hk a (HQ a eq_refl)).
  - split; [done|]. by intros.
Qed.

Lemma keeps_deref hs r : keeps hs (vaex.deref r) (λ _, True).
Proof.
  intros h Hh. unfold vaex.deref. by destruct (h !! r).
Qed.

Lemma keeps_lift {A : Type} hs (x : result A) : keeps hs (vaex.lift x) (λ _, True).
Proof. by intros h Hh. Qed.

Lemma keeps_alloc hs f : keeps hs (vaex.alloc f) (fresh hs).
Proof.
  intros h Hh. unfold vaex.alloc. simpl. split.
  - by apply prefix_app_r.
  - intros r [= <-]. by apply prefix_length.
Qed.

Lemma keeps_store hs r f : fresh hs r → keeps hs (vaex.store r f) (λ _, True).
Proof.
  intros Hr h [k ->]. unfold vaex.store. cbn [fst snd]. split; [|done].
  rewrite insert_app_r_alt by done. by apply prefix_app_r.
Qed.

Lemma keeps_copy hs r : keeps hs (vaex.copy r) (fresh hs).
Proof.
  eapply keeps_bind; [apply keeps_deref|]. intros f _. apply keeps_alloc.
Qed.

Lemma keeps_groupby_agg_count hs r by_ name of_ :
  keeps hs (vaex.groupby_agg_count r by_ name of_) (fresh hs).
Proof.
  eapply keeps_bind; [apply keeps_deref|]. intros f _.
  eapply keeps_bind; [apply keeps_lift|]. intros g _. apply keeps_alloc.
Qed.

Lemma keeps_join hs r o on : keeps hs (vaex.join r o on) (fresh hs).
Proof.
  eapply keeps_bind; [apply keeps_deref|]. intros f _.
  eapply keeps_bind; [apply keeps_deref|]. intros g _.
  eapply keeps_bind; [apply keeps_lift|]. intros j _. apply keeps_alloc.
Qed.

Lemma keeps_setitem hs r name e :
  fresh hs r → keeps hs (vaex.setitem r name e) (λ _, True).
Proof.
  intros Hr.
  eapply keeps_bind; [apply keeps_deref|]. intros f _.
  eapply keeps_bind; [apply keeps_lift|]. intros f' _. by apply keeps_store.
Qed.

Lemma keeps_drop hs r names : keeps hs (vaex.drop r names) (fresh hs).
Proof.
  eapply keeps_bind; [apply keeps_deref|]. intros f _.
  eapply keeps_bind; [apply keeps_lift|]. intros d _. apply keeps_alloc.
Qed.

Lemma keeps_prepare_data hs data y :
  keeps hs (prepare_data data y) (fresh hs).
Proof.
  unfold prepare_data.
  eapply keeps_bind; [apply keeps_copy|]. intros df _.
  eapply keeps_bind; [apply keeps_groupby_agg_count|]. intros g _.
  eapply keeps_bind; [apply keeps_join|]. intros df1 Hdf1.
  destruct y as [y|].
  - eapply keeps_bind; [apply keeps_join|]. intros df2 Hdf2.
    eapply keeps_bind; [by apply keeps_setitem|]. intros _ _.
    eapply keeps_bind; [apply keeps_drop|]. intros df3 Hdf3.
    by apply keeps_ret.
  - eapply keeps_bind; [by apply keeps_setitem|]. intros _ _.
    eapply keeps_bind; [apply keeps_drop|]. intros df3 Hdf3.
    by apply keeps_ret.
Qed.

(** C9.  [prepare_data] leaves every frame that exists when it is called as it
    is, the run table and the label table among them, whether it returns or
    raises; a frame it returns is a new object. *)
Theorem prepare_data_pure h data y :
  (∀ r, (r < length h)%nat → (prepare_data data y h).2 !! r = h !! r) ∧
  (∀ out, (prepare_data data y h).1 = Ok out → (length h ≤ out)%nat).
Proof.
  destruct (keeps_prepare_data h data y h) as [Hpre Hfresh]; [done|].
  split; [|exact Hfresh].
  intros r Hr. symmetry. by apply prefix_lookup_lt.
Qed.

End Purity.

(** ** The label table *)

Section Labels.
Context `{FL : Float64}.
Import Frame.
Implicit Types (h : heap) (f out : DataFrame) (lines : list Z).

Lemma length_vrange (start stop : Z) :
  length (vrange start stop) = Z.to_nat (stop - start).
Proof. unfold vrange. by rewrite length_fmap, length_seqZ. Qed.

Lemma astype_int_vrange (start stop : Z) :
  - 2 ^ 53 ≤ start → stop ≤ 2 ^ 53 →
  cell_astype_int <$> vrange start stop = Int <$> seqZ start (stop - start).
Proof.
  intros Hlo Hhi. unfold vrange. rewrite <- list_fmap_compose.
  apply list_fmap_ext. intros _ k Hk%list_elem_of_lookup_2. simpl.
  apply elem_of_seqZ in Hk.
  rewrite to_int_of_int by lia. rewrite wrap64_id; [done|]. unfold int64. lia.
Qed.

Lemma add_column_unit_number lines :
  length lines = 100%nat →
  add_column (read_csv lines "remaining_cycles") "unit_number" (vrange 1 101)
  = Ok {| length_original := length lines;
          columns := [("remaining_cycles", Int <$> lines);
                      ("unit_number", vrange 1 101)] |}.
Proof.
  intros Hlen. unfold add_column, read_csv. cbn [length_original columns].
  rewrite decide_True by (by rewrite length_vrange).
  cbn [set_column fst]. by rewrite decide_False.
Qed.

Lemma setitem_unit_number lines :
  setitem {| length_original := length lines;
             columns := [("remaining_cycles", Int <$> lines);
                         ("unit_number", vrange 1 101)] |}
    "unit_number" (AsTypeInt (Col "unit_number"))
  = Ok (labels_100 lines).
Proof.
  unfold setitem. cbn [evaluate]. unfold column.
  cbn [columns lookup_column fst snd].
  rewrite decide_False, decide_True by done.
  cbn [mbind result_bind length_original].
  rewrite astype_int_vrange by lia.
  cbn [set_column fst]. by rewrite decide_False, decide_True.
Qed.

Lemma y_test_100 h lines :
  length lines = 100%nat → returns (y_test lines) h (labels_100 lines).
Proof.
  intros Hlen. eexists _, _. split.
  - unfold y_test.
    erewrite bind_ok by reflexivity.
    erewrite bind_ok by (by apply add_column_last, add_column_unit_number).
    erewrite bind_ok by apply setitem_last, setitem_unit_number.
    reflexivity.
  - apply lookup_snoc.
Qed.

Lemma y_test_label_table lines :
  length lines = 100%nat → label_table (labels_100 lines) (seqZ 1 100) lines.
Proof.
  intros Hlen. split; [done|]. split; [by rewrite length_seqZ|].
  split; [apply NoDup_seqZ|]. discriminate.
Qed.

Lemma y_test_wrong_length h lines :
  length lines ≠ 100%nat →
  ∃ msg, (y_test lines h).1 = Raise (ValueError msg).
Proof.
  intros Hlen. eexists. unfold y_test.
  erewrite bind_ok by reflexivity.
  unfold mbind, M_bind, vaex.add_column, vaex.deref, vaex.lift, mbind, M_bind.
  rewrite lookup_snoc. unfold add_column.
  rewrite decide_False; [reflexivity|].
  by rewrite length_vrange.
Qed.

(** C8, as the code has it.  For a label file of 100 lines, the label record
    of line [k] gets unit_number [k], for every [k] from 1 to 100, and keeps
    the remaining_cycles read from that line. *)
Theorem y_test_unit_number h lines :
  length lines = 100%nat →
  ∃ out, returns (y_test lines) h out ∧
         ∀ k, 1 ≤ k ≤ 100 →
              cell_at out "unit_number" (Z.to_nat (k - 1)) = Some (Int k) ∧
              cell_at out "remaining_cycles" (Z.to_nat (k - 1))
              = Int <$> lines !! Z.to_nat (k - 1).
Proof.
  intros Hlen. exists (labels_100 lines). split; [by apply y_test_100|].
  intros k Hk. unfold cell_at, column, labels_100.
  cbn [columns lookup_column fst snd].
  repeat case_decide; try done.
  cbn [mbind option_bind]. split.
  - rewrite list_lookup_fmap, lookup_seqZ_lt by lia.
    cbn [fmap option_fmap option_map]. do 2 f_equal. lia.
  - by rewrite list_lookup_fmap.
Qed.

End Labels.

(** * Further properties *)

(** ** The output table *)

Lemma position_Some_inv (u : Z) (ks : list Z) (j : nat) :
  position u ks = Some j → ks !! j = Some u.
Proof.
  unfold position. intros Hpos.
  destruct (list_find (λ k, k = u) ks) as [[j' k]|] eqn:Hf; [|done].
  simpl in Hpos. injection Hpos as ->.
  by apply list_find_Some in Hf as (Hj & -> & _).
Qed.

Section Output.
Context `{FL : Float64}.
Import Frame.
Implicit Types (h : heap) (f out : DataFrame) (data y : ref).
Implicit Types (us ts ks rs : list Z).

(** X1.  On a table that has a record and whose unit numbers are consecutive
    integers, [prepare_data] keeps the columns of the run table: they are the
    first columns of the output, in order, and a column read by name holds the
    same cells, row by row, in both variants. *)
Theorem prepare_data_keeps_columns h data (y : option ref) f us ts name c :
  h !! data = Some f → run_table f us ts → labels_present h y →
  column f name = Some c →
  ∃ out, returns (prepare_data data y) h out ∧
         columns f `prefix_of` columns out ∧
         column out name = Some c.
Proof.
  intros Hdata Hrun Hy Hc.
  destruct (run_prepare_data _ _ _ _ _ _ Hdata Hrun Hy) as (rul & _ & Hret).
  eexists. split; [exact Hret|]. split.
  - by eexists.
  - by apply column_with_columns_l.
Qed.

(** X2.  Train variant, on a table whose unit numbers are consecutive
    integers: between two records of one unit the RUL falls by as much as
    time_in_cycles rises, whenever both RUL values are 64-bit integers. *)
Theorem prepare_data_train_RUL_step h data f us ts i j u t t' :
  h !! data = Some f → run_table f us ts →
  us !! i = Some u → ts !! i = Some t →
  us !! j = Some u → ts !! j = Some t' →
  int64 (Z.of_nat (rows_of_unit u us) - t) →
  int64 (Z.of_nat (rows_of_unit u us) - t') →
  ∃ out a b, returns (prepare_data data None) h out ∧
             cell_at out "RUL" i = Some (Int a) ∧
             cell_at out "RUL" j = Some (Int b) ∧
             a - b = t' - t.
Proof.
  intros Hdata Hrun Hi Hti Hj Htj Hfit Hfit'.
  eexists _, _, _. split; [by eapply run_prepare_data_train|].
  rewrite !(cell_at_RUL _ _ _ _ _ Hrun).
  rewrite (RUL_train_lookup _ _ _ _ _ Hi Hti), (RUL_train_lookup _ _ _ _ _ Hj Htj).
  rewrite !wrap64_id by done. repeat split. lia.
Qed.

(** X3.  On a table whose unit numbers are consecutive integers, the RUL of
    the test variant is the RUL of the train variant plus the remaining_cycles
    of the record's unit, for a record whose unit has a label, whenever both
    RUL values are 64-bit integers. *)
Theorem prepare_data_test_is_train_plus_label
    h data y f yf us ts ks rs i u t r :
  h !! data = Some f → h !! y = Some yf →
  run_table f us ts → label_table yf ks rs →
  us !! i = Some u → ts !! i = Some t →
  has_label ks rs u r →
  int64 (Z.of_nat (rows_of_unit u us) - t) →
  int64 (Z.of_nat (rows_of_unit u us) + r - t) →
  ∃ out_test out_train a,
    returns (prepare_data data (Some y)) h out_test ∧
    returns (prepare_data data None) h out_train ∧
    cell_at out_train "RUL" i = Some (Int a) ∧
    cell_at out_test "RUL" i = Some (Int (a + r)).
Proof.
  intros Hdata Hy Hrun Hlab Hu Ht (j & Hj & Hr) Hfit Hfit'.
  eexists _, _, _.
  split; [by eapply run_prepare_data_test|].
  split; [by eapply run_prepare_data_train|].
  destruct Hlab as (_ & _ & Hnd & _).
  rewrite !(cell_at_RUL _ _ _ _ _ Hrun).
  rewrite (RUL_train_lookup _ _ _ _ _ Hu Ht).
  rewrite (RUL_test_lookup _ _ _ _ _ _ _ _ _ Hu Ht (position_lookup _ _ _ Hnd Hj) Hr).
  rewrite !wrap64_id by done. split; [done|]. do 2 f_equal. lia.
Qed.

(** X4.  Train variant, on a table whose unit numbers are consecutive
    integers: no RUL is missing; every record of the run table gets an
    integer. *)
Theorem prepare_data_train_no_missing h data f us ts i :
  h !! data = Some f → run_table f us ts →
  (i < length_original f)%nat →
  ∃ out z, returns (prepare_data data None) h out ∧
           cell_at out "RUL" i = Some (Int z).
Proof.
  intros Hdata Hrun Hi.
  destruct (run_table_lengths _ _ _ Hrun) as [Hlu Hlt].
  destruct (lookup_lt_is_Some_2 us i) as [u Hu]; [lia|].
  destruct (lookup_lt_is_Some_2 ts i) as [t Ht]; [lia|].
  eexists _, _. split; [by eapply run_prepare_data_train|].
  rewrite (cell_at_RUL _ _ _ _ _ Hrun).
  apply (RUL_train_lookup _ _ _ _ _ Hu Ht).
Qed.

(** X5.  Test variant, on a table whose unit numbers are consecutive integers
    and a label table that has a row: the RUL of a record is missing exactly
    when the record's unit has no row in the label table. *)
Theorem prepare_data_missing_iff_unlabelled h data y f yf us ts ks rs i u :
  h !! data = Some f → h !! y = Some yf →
  run_table f us ts → label_table yf ks rs →
  us !! i = Some u →
  ∃ out, returns (prepare_data data (Some y)) h out ∧
         (cell_at out "RUL" i = Some NA ↔ u ∉ ks).
Proof.
  intros Hdata Hy Hrun Hlab Hu.
  destruct (run_table_lengths _ _ _ Hrun) as [Hlu Hlt].
  destruct (lookup_lt_is_Some_2 ts i) as [t Ht].
  { apply lookup_lt_Some in Hu. lia. }
  eexists. split; [by eapply run_prepare_data_test|].
  rewrite (cell_at_RUL _ _ _ _ _ Hrun).
  destruct Hlab as (_ & Hlen & Hnd & _). split.
  - intros Hna Hin.
    destruct (position_Some u ks Hin) as (j & Hpos & Hj).
    destruct (lookup_lt_is_Some_2 rs j) as [r Hr].
    { apply lookup_lt_Some in Hj. lia. }
    by rewrite (RUL_test_lookup _ _ _ _ _ _ _ _ _ Hu Ht Hpos Hr) in Hna.
  - intros Hnot. by eapply RUL_test_lookup_unlabelled, position_None.
Qed.

Lemma remaining_cycles_column_ext ks rs ks' rs' us :
  length rs = length ks → NoDup ks →
  length rs' = length ks' → NoDup ks' →
  (∀ u r, u ∈ us → has_label ks rs u r ↔ has_label ks' rs' u r) →
  remaining_cycles_column ks rs us = remaining_cycles_column ks' rs' us.
Proof.
  intros Hlen Hnd Hlen' Hnd' Hsame.
  assert (∀ ks rs u, length rs = length ks → NoDup ks →
            ∀ r, has_label ks rs u r ↔
                 (position u ks ≫= λ j, rs !! j) = Some r) as Hchar.
  { clear. intros ks rs u Hlen Hnd r. split.
    - intros (j & Hj & Hr). by rewrite (position_lookup _ _ _ Hnd Hj).
    - destruct (position u ks) as [j|] eqn:Hpos; [|done]. simpl. intros Hr.
      exists j. split; [|done]. by apply position_Some_inv. }
  apply list_eq. intros i.
  destruct (us !! i) as [u|] eqn:Hu.
  - rewrite !(remaining_cycles_column_lookup _ _ _ _ _ Hu). f_equal.
    assert (u ∈ us) as Hin by (by eapply list_elem_of_lookup_2).
    assert ((position u ks ≫= λ j, rs !! j)
            = (position u ks' ≫= λ j, rs' !! j)) as Heq.
    { apply option_eq. intros r.
      rewrite <- !Hchar by done. by apply Hsame. }
    destruct (position u ks) as [j|] eqn:Hpos;
      destruct (position u ks') as [j'|] eqn:Hpos'; simpl in *.
    + by rewrite Heq.
    + apply position_Some_inv, lookup_lt_Some in Hpos.
      destruct (lookup_lt_is_Some_2 rs j) as [r Hr]; [lia|].
      by rewrite Hr in Heq.
    + apply position_Some_inv, lookup_lt_Some in Hpos'.
      destruct (lookup_lt_is_Some_2 rs' j') as [r Hr]; [lia|].
      by rewrite Hr in Heq.
    + done.
  - unfold remaining_cycles_column, indexed.
    by rewrite !list_lookup_fmap, Hu.
Qed.


(** X6.  Test variant, on a table that has a record and whose unit numbers
    are consecutive integers: labels of units that have no record in the run
    table are not used.  Two label tables (each with a row) that give the
    units of the run table the same labels give the same output, and neither
    call raises. *)
Theorem prepare_data_unused_labels h data y y' f yf yf' us ts ks rs ks' rs' :
  h !! data = Some f → h !! y = Some yf → h !! y' = Some yf' →
  run_table f us ts → label_table yf ks rs → label_table yf' ks' rs' →
  (∀ u r, u ∈ us → has_label ks rs u r ↔ has_label ks' rs' u r) →
  ∃ out, returns (prepare_data data (Some y)) h out ∧
         returns (prepare_data data (Some y')) h out.
Proof.
  intros Hdata Hy Hy' Hrun Hlab Hlab' Hsame.
  exists (with_columns f [("RUL", RUL_test ks rs us ts)]).
  split; [by eapply run_prepare_data_test|].
  replace (RUL_test ks rs us ts) with (RUL_test ks' rs' us ts).
  { by eapply run_prepare_data_test. }
  destruct Hlab as (_ & Hlen & Hnd & _). destruct Hlab' as (_ & Hlen' & Hnd' & _).
  unfold RUL_test.
  by rewrite (remaining_cycles_column_ext ks rs ks' rs' us).
Qed.

End Output.

(** ** Inputs that make [prepare_data] raise *)

Section Errors.
Context `{FL : Float64}.
Import Frame.
Implicit Types (h : heap) (f out : DataFrame) (data : ref) (y : option ref).
Implicit Types (us ts ks rs : list Z).

Lemma bind_raise {A B : Type} (m : M A) (k : A → M B) h e h' :
  m h = (Raise e, h') → (m ≫= k) h = (Raise e, h').
Proof. intros Hm. unfold mbind, M_bind. by rewrite Hm. Qed.

Lemma has_duplicates_Int_true ks :
  ¬ NoDup ks → has_duplicates (Int <$> ks) = true.
Proof.
  induction ks as [|k ks IH]; intros Hdup.
  - destruct Hdup. constructor.
  - rewrite fmap_cons. cbn [has_duplicates]. rewrite existsb_key_Int.
    destruct (decide (k ∈ ks)) as [Hin|Hnot].
    + by rewrite bool_decide_eq_true_2.
    + rewrite bool_decide_eq_false_2 by done. apply IH.
      intros Hnd. apply Hdup. by constructor.
Qed.

Lemma groupby_missing_key f (by_ name of_ : string) :
  column f by_ = None ∨ column f of_ = None →
  ∃ e, groupby_agg_count f by_ name of_ = Raise e.
Proof.
  intros Hnone. unfold groupby_agg_count, getitem.
  destruct (column f by_) as [keys|]; [|by eexists].
  destruct Hnone as [?|Hof]; [done|]. rewrite Hof. by eexists.
Qed.

Lemma groupby_agg_count_raise h r f by_ name of_ e :
  h !! r = Some f →
  groupby_agg_count f by_ name of_ = Raise e →
  vaex.groupby_agg_count r by_ name of_ h = (Raise e, h).
Proof.
  intros Hr Hg.
  unfold vaex.groupby_agg_count, vaex.deref, vaex.lift, mbind, M_bind.
  by rewrite Hr, Hg.
Qed.

Lemma join_raise h r o f g on e :
  h !! r = Some f → h !! o = Some g →
  join f g on = Raise e →
  vaex.join r o on h = (Raise e, h).
Proof.
  intros Hr Ho Hj. unfold vaex.join, vaex.deref, vaex.lift, mbind, M_bind.
  by rewrite Hr, Ho, Hj.
Qed.

(** X7.  A run table without a [unit_number] column, or without a
    [time_in_cycles] column, makes [prepare_data] raise, in both variants. *)
Theorem prepare_data_missing_key_column h data y f :
  h !! data = Some f →
  column f "unit_number" = None ∨ column f "time_in_cycles" = None →
  raises (prepare_data data y) h.
Proof.
  intros Hdata Hnone.
  destruct (groupby_missing_key f "unit_number" "max_cycles" "time_in_cycles" Hnone)
    as [e He].
  exists e. eexists. unfold prepare_data.
  erewrite bind_ok by (by apply copy_ok).
  apply bind_raise.
  eapply groupby_agg_count_raise; [apply lookup_snoc|exact He].
Qed.

Lemma groupby_keys f (keys vals : list cell) :
  column f "unit_number" = Some keys →
  column f "time_in_cycles" = Some vals →
  ∃ counts,
    groupby_agg_count f "unit_number" "max_cycles" "time_in_cycles"
    = Ok {| length_original := length (unique keys);
            columns := [("unit_number", grouped_keys (unique keys));
                        ("max_cycles", counts)] |}.
Proof.
  intros Hk Hv. unfold groupby_agg_count, getitem. rewrite Hk, Hv.
  by eexists.
Qed.

Lemma join_collision (left right : DataFrame) (on name : string) :
  name ∈ get_column_names right → name ≠ on →
  name ∈ get_column_names left →
  ∃ msg, join left right on = Raise (ValueError msg).
Proof.
  intros Hr Hne Hl. unfold join.
  destruct (list_find _ (get_column_names right)) as [p|] eqn:Hfind.
  - by eexists.
  - apply list_find_None in Hfind. rewrite Forall_forall in Hfind.
    destruct (Hfind name Hr). by split.
Qed.

(** X8.  A run table that already has a column named [max_cycles] makes
    [prepare_data] raise a [ValueError], in both variants: joining the counts
    back is a column name collision. *)
Theorem prepare_data_max_cycles_collision h data y f keys vals :
  h !! data = Some f →
  column f "unit_number" = Some keys →
  column f "time_in_cycles" = Some vals →
  "max_cycles" ∈ get_column_names f →
  raises_ValueError (prepare_data data y) h.
Proof.
  intros Hdata Hk Hv Hmax.
  destruct (groupby_keys f keys vals Hk Hv) as [counts Hg].
  destruct (join_collision f
              {| length_original := length (unique keys);
                 columns := [("unit_number", grouped_keys (unique keys));
                             ("max_cycles", counts)] |}
              "unit_number" "max_cycles") as [msg Hj]; [|done|done|].
  { unfold get_column_names. simpl. right. left. }
  exists msg. eexists. unfold prepare_data.
  erewrite bind_ok by (by apply copy_ok).
  erewrite bind_ok
    by (eapply groupby_agg_count_ok; [apply lookup_snoc|exact Hg]).
  apply bind_raise.
  eapply join_raise; [apply lookup_snoc_lt, lookup_snoc|apply lookup_snoc|exact Hj].
Qed.

(** The grouped counts and their join, on a frame with an integer unit column
    of consecutive unit numbers and no [max_cycles] column. *)
Lemma first_join_frames f us (vals : list cell) :
  column f "unit_number" = Some (Int <$> us) →
  column f "time_in_cycles" = Some vals →
  "max_cycles" ∉ get_column_names f →
  us ≠ [] → gap_free us →
  ∃ g mc,
    groupby_agg_count f "unit_number" "max_cycles" "time_in_cycles" = Ok g ∧
    join f g "unit_number" = Ok (with_columns f [("max_cycles", mc)]).
Proof.
  intros Hu Ht Hmax Hne Hgap.
  destruct (groupby_keys f _ _ Hu Ht) as [counts Hg].
  eexists _, _. split; [exact Hg|].
  unfold join.
  replace (list_find _ (get_column_names _)) with (@None (nat * string)).
  2:{ symmetry. apply list_find_None. unfold get_column_names. simpl.
      repeat constructor; intros [H1 H2]; done. }
  unfold getitem. rewrite Hu. simpl.
  rewrite unique_Int, (grouped_keys_gap_free _ Hgap).
  rewrite decide_False.
  2:{ rewrite length_fmap. intros Hlen%nil_length_inv.
      by apply (remove_dups_nonempty us). }
  rewrite has_duplicates_Int by apply NoDup_remove_dups.
  rewrite width_mismatch_Int. reflexivity.
Qed.

(** X9.  Test variant: a table with a record, consecutive unit numbers and
    already a column named [remaining_cycles] makes [prepare_data] raise a
    [ValueError]: joining the labels is a column name collision. *)
Theorem prepare_data_remaining_cycles_collision h data (y : ref) f yf us vals ks rs :
  h !! data = Some f → h !! y = Some yf →
  column f "unit_number" = Some (Int <$> us) →
  column f "time_in_cycles" = Some vals →
  us ≠ [] → gap_free us →
  "max_cycles" ∉ get_column_names f →
  "remaining_cycles" ∈ get_column_names f →
  label_table yf ks rs →
  raises_ValueError (prepare_data data (Some y)) h.
Proof.
  intros Hdata Hy Hu Ht Hne Hgap Hmax Hrem (Hcols & _).
  destruct (first_join_frames f us vals Hu Ht Hmax Hne Hgap) as (g & mc & Hg & Hj).
  destruct (join_collision (with_columns f [("max_cycles", mc)]) yf
              "unit_number" "remaining_cycles") as [msg Hjy]; [|done| |].
  { unfold get_column_names. rewrite Hcols. left. }
  { rewrite names_with_columns. apply elem_of_app. by left. }
  exists msg. eexists. unfold prepare_data.
  erewrite bind_ok by (by apply copy_ok).
  erewrite bind_ok
    by (eapply groupby_agg_count_ok; [apply lookup_snoc|exact Hg]).
  erewrite bind_ok
    by (eapply join_ok;
        [apply lookup_snoc_lt, lookup_snoc | apply lookup_snoc | exact Hj]).
  apply bind_raise.
  eapply join_raise; [apply lookup_snoc | by do 3 apply lookup_snoc_lt | exact Hjy].
Qed.

(** X10.  Test variant, on a table that has a record and whose unit numbers
    are consecutive integers: a label table in which a unit_number occurs
    twice makes [prepare_data] raise a [ValueError]; the join refuses to
    duplicate rows of the run table. *)
Theorem prepare_data_duplicate_labels h data (y : ref) f yf us ts ks rs :
  h !! data = Some f → h !! y = Some yf →
  run_table f us ts →
  columns yf = [("remaining_cycles", Int <$> rs); ("unit_number", Int <$> ks)] →
  ¬ NoDup ks →
  raises_ValueError (prepare_data data (Some y)) h.
Proof.
  intros Hdata Hy Hrun Hcols Hdup.
  assert (∃ msg, join (with_columns f [("max_cycles", max_cycles_column us)]) yf
                   "unit_number" = Raise (ValueError msg)) as [msg Hjy].
  { destruct Hrun as (_ & Hu & _ & Hmax & Hrem & _). unfold join.
    assert (get_column_names yf = ["remaining_cycles"; "unit_number"]) as ->.
    { unfold get_column_names. by rewrite Hcols. }
    replace (list_find _ ["remaining_cycles"; "unit_number"])
      with (@None (nat * string)).
    2:{ symmetry. apply list_find_None.
        repeat constructor; intros [H1 H2]; [|done].
        rewrite names_with_columns in H2. simpl in H2.
        rewrite elem_of_app, list_elem_of_singleton in H2.
        destruct H2; done. }
    unfold getitem. rewrite (column_with_columns_l _ _ _ _ Hu).
    unfold column. rewrite Hcols. simpl.
    rewrite decide_False.
    2:{ rewrite length_fmap. intros Hnil%nil_length_inv. subst ks.
        apply Hdup. constructor. }
    rewrite has_duplicates_Int_true by done. by eexists. }
  exists msg. eexists. unfold prepare_data.
  erewrite bind_ok by (by apply copy_ok).
  erewrite bind_ok
    by (eapply groupby_agg_count_ok;
        [apply lookup_snoc | apply (groupby_run_table _ _ _ Hrun)]).
  erewrite bind_ok
    by (eapply join_ok;
        [apply lookup_snoc_lt, lookup_snoc | apply lookup_snoc
        | apply (join_grouped _ _ _ Hrun)]).
  apply bind_raise.
  eapply join_raise; [apply lookup_snoc | by do 3 apply lookup_snoc_lt | exact Hjy].
Qed.

(** The first join, on a frame without a [max_cycles] column: what it does
    is decided by the two key columns. *)
Lemma first_join_keys f (keys vals : list cell) :
  column f "unit_number" = Some keys →
  column f "time_in_cycles" = Some vals →
  "max_cycles" ∉ get_column_names f →
  ∃ g, groupby_agg_count f "unit_number" "max_cycles" "time_in_cycles" = Ok g ∧
       ∀ e,
         (if decide (length (grouped_keys (unique keys)) = 0%nat)
          then Raise (IndexError "index of a table without rows")
          else if has_duplicates (grouped_keys (unique keys))
          then Raise (ValueError "this join will lead to duplication of rows")
          else if width_mismatch keys (grouped_keys (unique keys))
          then Raise (TypeError "key columns of different integer types")
          else Ok f) = Raise e →
         join f g "unit_number" = Raise e.
Proof.
  intros Hk Hv Hmax.
  destruct (groupby_keys f keys vals Hk Hv) as [counts Hg].
  eexists. split; [exact Hg|].
  intros e He. unfold join.
  replace (list_find _ (get_column_names _)) with (@None (nat * string)).
  2:{ symmetry. apply list_find_None. unfold get_column_names. simpl.
      repeat constructor; intros [H1 H2]; done. }
  unfold getitem. rewrite Hk. simpl.
  repeat case_match; done.
Qed.

Lemma prepare_data_first_join_raises h data y f g e :
  h !! data = Some f →
  groupby_agg_count f "unit_number" "max_cycles" "time_in_cycles" = Ok g →
  join f g "unit_number" = Raise e →
  ∃ h', prepare_data data y h = (Raise e, h').
Proof.
  intros Hdata Hg Hj. eexists. unfold prepare_data.
  erewrite bind_ok by (by apply copy_ok).
  erewrite bind_ok
    by (eapply groupby_agg_count_ok; [apply lookup_snoc|exact Hg]).
  apply bind_raise.
  eapply join_raise; [apply lookup_snoc_lt, lookup_snoc|apply lookup_snoc|exact Hj].
Qed.

(** X17.  A table without a record makes [prepare_data] raise an
    [IndexError], in both variants: the grouped counts have no row, and
    joining them back fails. *)
Theorem prepare_data_empty_table h data y f vals :
  h !! data = Some f →
  column f "unit_number" = Some [] →
  column f "time_in_cycles" = Some vals →
  "max_cycles" ∉ get_column_names f →
  raises_IndexError (prepare_data data y) h.
Proof.
  intros Hdata Hk Hv Hmax.
  destruct (first_join_keys f [] vals Hk Hv Hmax) as (g & Hg & Hj).
  destruct (prepare_data_first_join_raises h data y f g
              (IndexError "index of a table without rows") Hdata Hg)
    as [h' Hrun]; [by apply Hj|].
  by eexists _, h'.
Qed.


End Errors.

(** ** Cell 3, cell 6 and the notebook *)

Section Cells.
Context `{FL : Float64}.
Import Frame.
Implicit Types (h hs : heap) (f out : DataFrame) (lines : list Z).
Implicit Types (us ts ks rs : list Z).

Lemma keeps_read_csv hs lines (name : string) :
  keeps hs (vaex.read_csv lines name) (fresh hs).
Proof. apply keeps_alloc. Qed.

Lemma keeps_add_column hs (r : ref) (name : string) (vals : list cell) :
  fresh hs r → keeps hs (vaex.add_column r name vals) (λ _, True).
Proof.
  intros Hr.
  eapply keeps_bind; [apply keeps_deref|]. intros f _.
  eapply keeps_bind; [apply keeps_lift|]. intros f' _. by apply keeps_store.
Qed.

Lemma keeps_y_test hs lines : keeps hs (y_test lines) (fresh hs).
Proof.
  unfold y_test.
  eapply keeps_bind; [apply keeps_read_csv|]. intros y Hy.
  eapply keeps_bind; [by apply keeps_add_column|]. intros _ _.
  eapply keeps_bind; [by apply keeps_setitem|]. intros _ _.
  by apply keeps_ret.
Qed.

(** X11.  Cell 3 leaves every frame that exists before it as it is, whether it
    builds the label table or raises, and the label table it returns is a new
    object. *)
Theorem y_test_pure h lines :
  (∀ r, (r < length h)%nat → (y_test lines h).2 !! r = h !! r) ∧
  (∀ y : ref, (y_test lines h).1 = Ok y → (length h ≤ y)%nat).
Proof.
  destruct (keeps_y_test h lines h) as [Hpre Hfresh]; [done|].
  split; [|exact Hfresh].
  intros r Hr. symmetry. by apply prefix_lookup_lt.
Qed.

(** Cell 6 on two run tables and a label table. *)
Lemma run_cell_6 h (train test y : ref) ftrain ftest yf us ts us' ts' ks rs :
  h !! train = Some ftrain → h !! test = Some ftest → h !! y = Some yf →
  run_table ftrain us ts → run_table ftest us' ts' → label_table yf ks rs →
  ∃ r1 r2 h',
    cell_6 train test y h = (Ok (r1, r2), h') ∧
    h `prefix_of` h' ∧ r1 ≠ r2 ∧
    h' !! r1 = Some (with_columns ftrain [("RUL", RUL_train us ts)]) ∧
    h' !! r2 = Some (with_columns ftest [("RUL", RUL_test ks rs us' ts')]).
Proof.
  intros Htrain Htest Hy Hrtrain Hrtest Hlab.
  destruct (run_prepare_data_train h train ftrain us ts Htrain Hrtrain)
    as (r1 & h1 & Hrun1 & Hout1).
  destruct (keeps_prepare_data h train None h) as [Hpre1 _]; [done|].
  rewrite Hrun1 in Hpre1. simpl in Hpre1.
  destruct (run_prepare_data_test h1 test y ftest yf us' ts' ks rs)
    as (r2 & h2 & Hrun2 & Hout2); try done.
  { by eapply prefix_lookup_Some. }
  { by eapply prefix_lookup_Some. }
  destruct (keeps_prepare_data h1 test (Some y) h1) as [Hpre2 Hfresh2]; [done|].
  rewrite Hrun2 in Hpre2, Hfresh2. simpl in Hpre2, Hfresh2.
  exists r1, r2, h2. split.
  { unfold cell_6. erewrite bind_ok by exact Hrun1.
    erewrite bind_ok by exact Hrun2. reflexivity. }
  split; [by etrans|].
  apply lookup_lt_Some in Hout1 as Hlt.
  specialize (Hfresh2 r2 eq_refl). unfold fresh in Hfresh2.
  split; [lia|]. split; [|done].
  by eapply prefix_lookup_Some.
Qed.

(** X12.  On two tables that have a record and whose unit numbers are
    consecutive integers, and a label table that has a row, cell 6 computes
    for each run table what [prepare_data] computes for it alone: preparing
    the train table first does not change the test table or the label table,
    the two results are different objects, and the three inputs are as they
    were. *)
Theorem cell_6_tables h (train test y : ref) ftrain ftest yf us ts us' ts' ks rs :
  h !! train = Some ftrain → h !! test = Some ftest → h !! y = Some yf →
  run_table ftrain us ts → run_table ftest us' ts' → label_table yf ks rs →
  ∃ out_train out_test r1 r2 h',
    returns (prepare_data train None) h out_train ∧
    returns (prepare_data test (Some y)) h out_test ∧
    cell_6 train test y h = (Ok (r1, r2), h') ∧
    r1 ≠ r2 ∧
    h' !! r1 = Some out_train ∧ h' !! r2 = Some out_test ∧
    h' !! train = Some ftrain ∧ h' !! test = Some ftest ∧ h' !! y = Some yf.
Proof.
  intros Htrain Htest Hy Hrtrain Hrtest Hlab.
  destruct (run_cell_6 h train test y _ _ _ _ _ _ _ _ _
              Htrain Htest Hy Hrtrain Hrtest Hlab)
    as (r1 & r2 & h' & Hrun & Hpre & Hne & Hr1 & Hr2).
  eexists _, _, r1, r2, h'.
  split; [by eapply run_prepare_data_train|].
  split; [by eapply run_prepare_data_test|].
  repeat split; try done; by eapply prefix_lookup_Some.
Qed.

(** The notebook on two run tables and a label file of 100 lines. *)
Lemma run_notebook h (train test : ref) ftrain ftest lines us ts us' ts' :
  h !! train = Some ftrain → h !! test = Some ftest →
  run_table ftrain us ts → run_table ftest us' ts' →
  length lines = 100%nat →
  ∃ r1 r2 h',
    notebook train test lines h = (Ok (r1, r2), h') ∧
    h' !! r1 = Some (with_columns ftrain [("RUL", RUL_train us ts)]) ∧
    h' !! r2 = Some (with_columns ftest
                       [("RUL", RUL_test (seqZ 1 100) lines us' ts')]).
Proof.
  intros Htrain Htest Hrtrain Hrtest Hlen.
  destruct (y_test_100 h lines Hlen) as (y & hy & Hrun & Hy).
  destruct (keeps_y_test h lines h) as [Hpre _]; [done|].
  rewrite Hrun in Hpre. simpl in Hpre.
  destruct (run_cell_6 hy train test y ftrain ftest (labels_100 lines)
              us ts us' ts' (seqZ 1 100) lines)
    as (r1 & r2 & h' & Hcell & _ & _ & Hr1 & Hr2); try done.
  { by eapply prefix_lookup_Some. }
  { by eapply prefix_lookup_Some. }
  { by apply y_test_label_table. }
  exists r1, r2, h'. split; [|done].
  unfold notebook. by erewrite bind_ok by exact Hrun.
Qed.

(** X13.  The notebook labels by position: on two non-empty tables whose unit
    numbers are consecutive integers, with a label file of 100 lines that are
    64-bit integers, a record of the test table whose unit_number [u] is
    between 1 and 100 gets RUL = max_cycles + (line [u] of the label file) -
    time_in_cycles, whenever that value is a 64-bit integer. *)
Theorem notebook_test_RUL
    h (train test : ref) ftrain ftest lines us ts us' ts' i u t r :
  h !! train = Some ftrain → h !! test = Some ftest →
  run_table ftrain us ts → run_table ftest us' ts' →
  length lines = 100%nat → Forall int64 lines →
  us' !! i = Some u → ts' !! i = Some t →
  1 ≤ u ≤ 100 → lines !! Z.to_nat (u - 1) = Some r →
  int64 (Z.of_nat (rows_of_unit u us') + r - t) →
  ∃ r1 r2 h' out,
    notebook train test lines h = (Ok (r1, r2), h') ∧
    h' !! r2 = Some out ∧
    cell_at out "RUL" i = Some (Int (Z.of_nat (rows_of_unit u us') + r - t)).
Proof.
  intros Htrain Htest Hrtrain Hrtest Hlen _ Hu Ht Hrange Hr Hfit.
  destruct (run_notebook h train test _ _ lines _ _ _ _
              Htrain Htest Hrtrain Hrtest Hlen)
    as (r1 & r2 & h' & Hrun & _ & Hr2).
  eexists r1, r2, h', _. split; [exact Hrun|]. split; [exact Hr2|].
  rewrite (cell_at_RUL _ _ _ _ _ Hrtest).
  assert (seqZ 1 100 !! Z.to_nat (u - 1) = Some u) as Hj.
  { rewrite lookup_seqZ_lt by lia. f_equal. lia. }
  rewrite (RUL_test_lookup _ _ _ _ _ _ _ _ _ Hu Ht
             (position_lookup _ _ _ (NoDup_seqZ 1 100) Hj) Hr).
  by rewrite wrap64_id.
Qed.

(** X14.  On two non-empty tables whose unit numbers are consecutive integers,
    with a label file of 100 lines that are 64-bit integers, a record of the
    test table whose unit_number is not between 1 and 100 gets a missing RUL,
    and the notebook raises nothing. *)
Theorem notebook_unit_out_of_range
    h (train test : ref) ftrain ftest lines us ts us' ts' i u :
  h !! train = Some ftrain → h !! test = Some ftest →
  run_table ftrain us ts → run_table ftest us' ts' →
  length lines = 100%nat → Forall int64 lines →
  us' !! i = Some u → u < 1 ∨ 100 < u →
  ∃ r1 r2 h' out,
    notebook train test lines h = (Ok (r1, r2), h') ∧
    h' !! r2 = Some out ∧
    cell_at out "RUL" i = Some NA.
Proof.
  intros Htrain Htest Hrtrain Hrtest Hlen _ Hu Hrange.
  destruct (run_notebook h train test _ _ lines _ _ _ _
              Htrain Htest Hrtrain Hrtest Hlen)
    as (r1 & r2 & h' & Hrun & _ & Hr2).
  destruct (run_table_lengths _ _ _ Hrtest) as [Hlu Hlt].
  destruct (lookup_lt_is_Some_2 ts' i) as [t Ht].
  { apply lookup_lt_Some in Hu. lia. }
  eexists r1, r2, h', _. split; [exact Hrun|]. split; [exact Hr2|].
  rewrite (cell_at_RUL _ _ _ _ _ Hrtest).
  eapply RUL_test_lookup_unlabelled; [done..|].
  apply position_None. rewrite elem_of_seqZ. lia.
Qed.

End Cells.

(** ** More on the label table *)

Section LabelFile.
Context `{FL : Float64}.
Import Frame.
Implicit Types (h : heap) (out : DataFrame) (lines : list Z).

(** X15.  On a label file whose number of lines is not 100, cell 3 raises a
    [ValueError] and builds no label table. *)
Theorem y_test_other_length h lines :
  length lines ≠ 100%nat → raises_ValueError (y_test lines) h.
Proof.
  intros Hlen. destruct (y_test_wrong_length h lines Hlen) as [msg Hmsg].
  destruct (y_test lines h) as [res h'] eqn:Hrun. simpl in Hmsg. subst res.
  by exists msg, h'.
Qed.

(** X16.  On a label file of 100 lines, cell 3 returns a table of 100 rows
    with exactly the columns [remaining_cycles], holding the lines of the file
    in order, and [unit_number]; its unit numbers are distinct, so it is a
    label table [prepare_data] accepts. *)
Theorem y_test_shape h lines :
  length lines = 100%nat →
  ∃ out, returns (y_test lines) h out ∧
         length_original out = 100%nat ∧
         get_column_names out = ["remaining_cycles"; "unit_number"] ∧
         column out "remaining_cycles" = Some (Int <$> lines) ∧
         label_table out (seqZ 1 100) lines.
Proof.
  intros Hlen. exists (labels_100 lines).
  split; [by apply y_test_100|]. split; [done|]. split; [done|].
  split; [done|]. by apply y_test_label_table.
Qed.

End LabelFile.

(** * The properties on the example tables *)

Section Examples.
#[local] Existing Instance rational_float64.
Import Frame.

(** A closed decidable proposition, by evaluation. *)
Ltac by_evaluation := refine (bool_decide_unpack _ _); vm_compute; exact I.

Lemma ex_runs_table :
  run_table ex_runs [1; 1; 1; 1; 1; 2; 2; 2] [1; 2; 3; 4; 5; 1; 2; 3].
Proof.
  repeat split; try reflexivity; try by_evaluation.
  apply (gap_free_check 1 2); by_evaluation.
Qed.

Lemma ex_runs_contiguous :
  contiguous_from_1 [1; 1; 1; 1; 1; 2; 2; 2] [1; 2; 3; 4; 5; 1; 2; 3].
Proof.
  intros u.
  destruct (decide (u = 1)) as [->|H1]; [vm_compute; reflexivity|].
  destruct (decide (u = 2)) as [->|H2]; [vm_compute; reflexivity|].
  unfold cycles_of, rows_of_unit. cbn [zip zip_with].
  rewrite !filter_cons, !decide_False by done. reflexivity.
Qed.

Lemma ex_labels_table : label_table ex_labels [1; 2] [10; 7].
Proof. repeat split; try reflexivity; by_evaluation. Qed.

Lemma ex_labels_truncated_table : label_table ex_labels_truncated [1] [10].
Proof. repeat split; try reflexivity; by_evaluation. Qed.


Lemma ex_labels_extra_table : label_table ex_labels_extra [1; 2; 3] [10; 7; 7].
Proof. repeat split; try reflexivity; by_evaluation. Qed.

(** *** Scenarios *)

(** Train: a unit with cycles 1..5 gets RUL 4, 3, 2, 1, 0. *)
Example train_scenario :
  returns (prepare_data 0%nat None) ex_heap
    (with_columns ex_runs [("RUL", Int <$> [4; 3; 2; 1; 0; 2; 1; 0])]).
Proof.
  exact (run_prepare_data_train ex_heap 0%nat ex_runs
           [1; 1; 1; 1; 1; 2; 2; 2] [1; 2; 3; 4; 5; 1; 2; 3]
           eq_refl ex_runs_table).
Qed.

(** Test: a unit with cycles 1..5 and 10 remaining cycles gets RUL 14, 13, 12,
    11, 10. *)
Example test_scenario :
  returns (prepare_data 0%nat (Some 1%nat)) ex_heap
    (with_columns ex_runs [("RUL", Int <$> [14; 13; 12; 11; 10; 9; 8; 7])]).
Proof.
  exact (run_prepare_data_test ex_heap 0%nat 1%nat ex_runs ex_labels
           [1; 1; 1; 1; 1; 2; 2; 2] [1; 2; 3; 4; 5; 1; 2; 3] [1; 2] [10; 7]
           eq_refl eq_refl ex_runs_table ex_labels_table).
Qed.

(** A label for a unit without run records is not used and raises nothing. *)
Example unused_label_scenario :
  returns (prepare_data 0%nat (Some 4%nat)) ex_heap
    (with_columns ex_runs [("RUL", Int <$> [14; 13; 12; 11; 10; 9; 8; 7])]).
Proof.
  exact (run_prepare_data_test ex_heap 0%nat 4%nat ex_runs ex_labels_extra
           [1; 1; 1; 1; 1; 2; 2; 2] [1; 2; 3; 4; 5; 1; 2; 3] [1; 2; 3] [10; 7; 7]
           eq_refl eq_refl ex_runs_table ex_labels_extra_table).
Qed.

(** *** Witnesses *)

Lemma prepare_data_train_RUL_witness :
  ∃ out, returns (prepare_data 0%nat None) ex_heap out ∧
         cell_at out "RUL" 0 = Some (Int 4).
Proof.
  apply (prepare_data_train_RUL ex_heap 0%nat ex_runs
           [1; 1; 1; 1; 1; 2; 2; 2] [1; 2; 3; 4; 5; 1; 2; 3] 0%nat 1 1).
  - reflexivity.
  - exact ex_runs_table.
  - reflexivity.
  - reflexivity.
  - by_evaluation.
Defined.

Lemma prepare_data_test_RUL_witness :
  ∃ out, returns (prepare_data 0%nat (Some 1%nat)) ex_heap out ∧
         cell_at out "RUL" 0 = Some (Int 14).
Proof.
  apply (prepare_data_test_RUL ex_heap 0%nat 1%nat ex_runs ex_labels
           [1; 1; 1; 1; 1; 2; 2; 2] [1; 2; 3; 4; 5; 1; 2; 3] [1; 2] [10; 7]
           0%nat 1 1 0%nat 10).
  - reflexivity.
  - reflexivity.
  - exact ex_runs_table.
  - exact ex_labels_table.
  - reflexivity.
  - reflexivity.
  - reflexivity.
  - reflexivity.
  - by_evaluation.
Defined.

Lemma prepare_data_missing_label_witness :
  ∃ out, returns (prepare_data 0%nat (Some 2%nat)) ex_heap out ∧
         cell_at out "RUL" 5 = Some NA.
Proof.
  apply (prepare_data_missing_label ex_heap 0%nat 2%nat ex_runs ex_labels_truncated
           [1; 1; 1; 1; 1; 2; 2; 2] [1; 2; 3; 4; 5; 1; 2; 3] [1] [10] 5%nat 2).
  - reflexivity.
  - reflexivity.
  - exact ex_runs_table.
  - exact ex_labels_truncated_table.
  - reflexivity.
  - by_evaluation.
Defined.

Lemma prepare_data_row_count_witness :
  ∃ out, returns (prepare_data 0%nat (Some 1%nat)) ex_heap out ∧
         length_original out = length_original ex_runs ∧
         well_formed out.
Proof.
  apply (prepare_data_row_count ex_heap 0%nat (Some 1%nat) ex_runs
           [1; 1; 1; 1; 1; 2; 2; 2] [1; 2; 3; 4; 5; 1; 2; 3]).
  - reflexivity.
  - exact ex_runs_table.
  - exists ex_labels, [1; 2], [10; 7]. split; [reflexivity|exact ex_labels_table].
Defined.

Lemma prepare_data_columns_witness :
  ∃ out, returns (prepare_data 0%nat (Some 1%nat)) ex_heap out ∧
         get_column_names out
         = ["unit_number"; "time_in_cycles"; "setting_1"; "T2"] ++ ["RUL"] ∧
         ("max_cycles" ∉ get_column_names out) ∧
         ("remaining_cycles" ∉ get_column_names out).
Proof.
  apply (prepare_data_columns ex_heap 0%nat (Some 1%nat) ex_runs
           [1; 1; 1; 1; 1; 2; 2; 2] [1; 2; 3; 4; 5; 1; 2; 3]).
  - reflexivity.
  - exact ex_runs_table.
  - exists ex_labels, [1; 2], [10; 7]. split; [reflexivity|exact ex_labels_table].
Defined.

Lemma ex_runs_last_record :
  last_record [1; 1; 1; 1; 1; 2; 2; 2] [1; 2; 3; 4; 5; 1; 2; 3] 4 1 5.
Proof.
  repeat split; try reflexivity.
  intros j t' Hj Ht'.
  apply (cycle_bounds _ _ _ _ _ ex_runs_contiguous Hj Ht').
Qed.

Lemma prepare_data_last_record_witness :
  ∃ out, returns (prepare_data 0%nat None) ex_heap out ∧
         cell_at out "RUL" 4 = Some (Int 0).
Proof.
  apply (prepare_data_last_record ex_heap 0%nat ex_runs
           [1; 1; 1; 1; 1; 2; 2; 2] [1; 2; 3; 4; 5; 1; 2; 3] 4%nat 1 5).
  - reflexivity.
  - exact ex_runs_table.
  - exact ex_runs_contiguous.
  - exact ex_runs_last_record.
Defined.

Lemma ex_labels_nonnegative :
  labels_nonnegative ex_heap (Some 1%nat) [1; 1; 1; 1; 1; 2; 2; 2].
Proof.
  exists ex_labels, [1; 2], [10; 7].
  split; [reflexivity|]. split; [exact ex_labels_table|].
  intros u Hu.
  repeat (apply elem_of_cons in Hu as [->|Hu]);
    [exists 0%nat, 10 .. | exists 1%nat, 7 | exists 1%nat, 7 | exists 1%nat, 7
    | by apply elem_of_nil in Hu];
    repeat split; by_evaluation.
Qed.

Lemma prepare_data_RUL_nonnegative_witness :
  ∃ out, returns (prepare_data 0%nat (Some 1%nat)) ex_heap out ∧
         (∀ i, (i < length_original ex_runs)%nat →
               ∃ z, cell_at out "RUL" i = Some (Int z) ∧ 0 ≤ z) ∧
         (Some 1%nat = None →
          ∀ i u t, last_record [1; 1; 1; 1; 1; 2; 2; 2] [1; 2; 3; 4; 5; 1; 2; 3] i u t →
                   cell_at out "RUL" i = Some (Int 0)).
Proof.
  apply (prepare_data_RUL_nonnegative ex_heap 0%nat (Some 1%nat) ex_runs
           [1; 1; 1; 1; 1; 2; 2; 2] [1; 2; 3; 4; 5; 1; 2; 3]).
  - reflexivity.
  - exact ex_runs_table.
  - exact ex_runs_contiguous.
  - exact ex_labels_nonnegative.
Defined.

Lemma y_test_unit_number_witness :
  ∃ out, returns (y_test ex_label_lines) [] out ∧
         ∀ k, 1 ≤ k ≤ 100 →
              cell_at out "unit_number" (Z.to_nat (k - 1)) = Some (Int k) ∧
              cell_at out "remaining_cycles" (Z.to_nat (k - 1))
              = Int <$> ex_label_lines !! Z.to_nat (k - 1).
Proof.
  apply (y_test_unit_number [] ex_label_lines). reflexivity.
Defined.


(** *** Counterexamples *)

(** C3, as stated, fails.  Row 5 of the run table is a record of unit 2, the
    truncated label table has no row for unit 2, and [prepare_data] raises
    nothing: it returns a table in which the RUL of that record is missing. *)
Lemma missing_label_counterexample :
  cell_at ex_runs "unit_number" 5 = Some (Int 2) ∧
  column ex_labels_truncated "unit_number" = Some [Int 1] ∧
  ¬ (∃ e h', prepare_data 0%nat (Some 2%nat) ex_heap = (Raise e, h')) ∧
  ∃ out, returns (prepare_data 0%nat (Some 2%nat)) ex_heap out ∧
         cell_at out "RUL" 5 = Some NA.
Proof.
  destruct (run_prepare_data_test ex_heap 0%nat 2%nat ex_runs ex_labels_truncated
              [1; 1; 1; 1; 1; 2; 2; 2] [1; 2; 3; 4; 5; 1; 2; 3] [1] [10])
    as (r & h' & Hrun & Hout);
    [reflexivity | reflexivity | exact ex_runs_table
    | exact ex_labels_truncated_table |].
  split; [reflexivity|]. split; [reflexivity|]. split.
  - intros (e & h'' & Hraise). rewrite Hrun in Hraise. discriminate Hraise.
  - eexists. split.
    + by exists r, h'.
    + reflexivity.
Qed.

(** C8, as stated, fails.  On a label file of 2 lines cell 3 assigns no unit
    number: the assignment of [vaex.vrange(1, 101)] raises, so line 2 is not
    given unit_number 2. *)
Lemma y_test_short_file_counterexample :
  length ex_label_lines_short = 2%nat ∧
  (y_test ex_label_lines_short []).1
  = Raise (ValueError "array length differs from the length of the DataFrame") ∧
  ¬ (∃ out, returns (y_test ex_label_lines_short) [] out).
Proof.
  split; [reflexivity|]. split; [vm_compute; reflexivity|].
  intros (out & r & h' & Hrun & _).
  apply (f_equal fst) in Hrun. vm_compute in Hrun. discriminate Hrun.
Qed.


Lemma ex_runs_gap_contiguous : contiguous_from_1 [5; 5; 7] [1; 2; 1].
Proof.
  intros u.
  destruct (decide (u = 5)) as [->|H5]; [vm_compute; reflexivity|].
  destruct (decide (u = 7)) as [->|H7]; [vm_compute; reflexivity|].
  unfold cycles_of, rows_of_unit. cbn [zip zip_with].
  rewrite !filter_cons, !decide_False by done. reflexivity.
Qed.

Lemma ex_runs_gap_last_record : last_record [5; 5; 7] [1; 2; 1] 1 5 2.
Proof.
  repeat split; try reflexivity.
  intros j t' Hj Ht'.
  apply (cycle_bounds _ _ _ _ _ ex_runs_gap_contiguous Hj Ht').
Qed.

Lemma ex_labels_gap_table : label_table ex_labels_gap [5; 7] [10; 7].
Proof. repeat split; try reflexivity; by_evaluation. Qed.


(** The exception of a run is read off its result. *)
Lemma raises_TypeError_result {A : Type} (m : M A) (h : heap) (msg : string) :
  (m h).1 = Raise (TypeError msg) → raises_TypeError m h.
Proof.
  intros Hres. destruct (m h) as [res h'] eqn:Hrun. simpl in Hres. subst res.
  by exists msg, h'.
Qed.

Lemma raises_IndexError_result {A : Type} (m : M A) (h : heap) (msg : string) :
  (m h).1 = Raise (IndexError msg) → raises_IndexError m h.
Proof.
  intros Hres. destruct (m h) as [res h'] eqn:Hrun. simpl in Hres. subst res.
  by exists msg, h'.
Qed.

Lemma ex_gap_train_raises :
  raises_TypeError (prepare_data 0%nat None) ex_heap_gap.
Proof.
  apply (raises_TypeError_result _ _ "key columns of different integer types").
  vm_compute. reflexivity.
Qed.

Lemma ex_gap_test_raises :
  raises_TypeError (prepare_data 0%nat (Some 2%nat)) ex_heap_gap.
Proof.
  apply (raises_TypeError_result _ _ "key columns of different integer types").
  vm_compute. reflexivity.
Qed.


Lemma ex_empty_train_raises :
  raises_IndexError (prepare_data 1%nat None) ex_heap_gap.
Proof.
  apply (raises_IndexError_result _ _ "index of a table without rows").
  vm_compute. reflexivity.
Qed.

Lemma ex_empty_test_raises :
  raises_IndexError (prepare_data 1%nat (Some 2%nat)) ex_heap_gap.
Proof.
  apply (raises_IndexError_result _ _ "index of a table without rows").
  vm_compute. reflexivity.
Qed.

(** A run that raises returns no table. *)
Lemma raise_no_output (m : M ref) (h h' : heap) (e : exn) :
  m h = (Raise e, h') → ¬ (∃ out, returns m h out).
Proof.
  intros Hraise (out & r & h'' & Hrun & _). rewrite Hraise in Hrun.
  discriminate Hrun.
Qed.

Lemma TypeError_no_output (m : M ref) (h : heap) :
  raises_TypeError m h → ¬ (∃ out, returns m h out).
Proof. intros (msg & h' & Hraise). by eapply raise_no_output. Qed.

Lemma IndexError_no_output (m : M ref) (h : heap) :
  raises_IndexError m h → ¬ (∃ out, returns m h out).
Proof. intros (msg & h' & Hraise). by eapply raise_no_output. Qed.

(** C1, as stated, fails.  The table has records of units 5 and 7 and none of
    unit 6.  Row 0 is a record of unit 5 at cycle 1, and the train variant
    gives it no RUL: joining the counts back raises a [TypeError], and
    [prepare_data] returns no table. *)
Lemma train_RUL_counterexample :
  cell_at ex_runs_gap "unit_number" 0 = Some (Int 5) ∧
  cell_at ex_runs_gap "time_in_cycles" 0 = Some (Int 1) ∧
  raises_TypeError (prepare_data 0%nat None) ex_heap_gap ∧
  ¬ (∃ out, returns (prepare_data 0%nat None) ex_heap_gap out).
Proof.
  split; [reflexivity|]. split; [reflexivity|].
  split; [exact ex_gap_train_raises|].
  exact (TypeError_no_output _ _ ex_gap_train_raises).
Qed.

(** C2, as stated, fails.  The table has records of units 5 and 7 and none of
    unit 6, and the label table gives unit 5 the label 10.  Row 0 is a record
    of unit 5, and the test variant gives it no RUL: joining the counts back
    raises a [TypeError], and [prepare_data] returns no table. *)
Lemma test_RUL_counterexample :
  cell_at ex_runs_gap "unit_number" 0 = Some (Int 5) ∧
  label_table ex_labels_gap [5; 7] [10; 7] ∧
  has_label [5; 7] [10; 7] 5 10 ∧
  raises_TypeError (prepare_data 0%nat (Some 2%nat)) ex_heap_gap ∧
  ¬ (∃ out, returns (prepare_data 0%nat (Some 2%nat)) ex_heap_gap out).
Proof.
  split; [reflexivity|]. split; [exact ex_labels_gap_table|].
  split; [by exists 0%nat|].
  split; [exact ex_gap_test_raises|].
  exact (TypeError_no_output _ _ ex_gap_test_raises).
Qed.

(** C4, as stated, fails.  On the table of 3 rows with records of units 5 and
    7 and none of unit 6, and on the table without rows, [prepare_data]
    returns no table, so none with the number of rows of its input: the first
    join raises a [TypeError] on the one and an [IndexError] on the other, in
    both variants. *)
Lemma row_count_counterexample :
  length_original ex_runs_gap = 3%nat ∧
  length_original ex_runs_empty = 0%nat ∧
  labels_present ex_heap_gap (Some 2%nat) ∧
  ¬ (∃ out, returns (prepare_data 0%nat None) ex_heap_gap out) ∧
  ¬ (∃ out, returns (prepare_data 0%nat (Some 2%nat)) ex_heap_gap out) ∧
  ¬ (∃ out, returns (prepare_data 1%nat None) ex_heap_gap out) ∧
  ¬ (∃ out, returns (prepare_data 1%nat (Some 2%nat)) ex_heap_gap out).
Proof.
  split; [reflexivity|]. split; [reflexivity|].
  split; [exists ex_labels_gap, [5; 7], [10; 7]; split;
          [reflexivity|exact ex_labels_gap_table]|].
  split; [exact (TypeError_no_output _ _ ex_gap_train_raises)|].
  split; [exact (TypeError_no_output _ _ ex_gap_test_raises)|].
  split; [exact (IndexError_no_output _ _ ex_empty_train_raises)|].
  exact (IndexError_no_output _ _ ex_empty_test_raises).
Qed.

(** C5, as stated, fails.  The table with records of units 5 and 7 and none
    of unit 6 has the columns unit_number, time_in_cycles and T2, and the
    table without rows has the two key columns; on both [prepare_data] raises
    and returns no table, so none with the columns of its input and RUL. *)
Lemma columns_counterexample :
  get_column_names ex_runs_gap = ["unit_number"; "time_in_cycles"; "T2"] ∧
  get_column_names ex_runs_empty = ["unit_number"; "time_in_cycles"] ∧
  raises_TypeError (prepare_data 0%nat None) ex_heap_gap ∧
  raises_TypeError (prepare_data 0%nat (Some 2%nat)) ex_heap_gap ∧
  raises_IndexError (prepare_data 1%nat None) ex_heap_gap ∧
  raises_IndexError (prepare_data 1%nat (Some 2%nat)) ex_heap_gap.
Proof.
  split; [reflexivity|]. split; [reflexivity|].
  split; [exact ex_gap_train_raises|]. split; [exact ex_gap_test_raises|].
  split; [exact ex_empty_train_raises|exact ex_empty_test_raises].
Qed.

(** C6, as stated, fails.  In the table with records of units 5 and 7 and
    none of unit 6 each unit's cycles are contiguous from 1, and row 1 is the
    last record of unit 5; the train variant gives it no RUL, since
    [prepare_data] raises a [TypeError] and returns no table. *)
Lemma last_record_counterexample :
  column ex_runs_gap "unit_number" = Some (Int <$> [5; 5; 7]) ∧
  column ex_runs_gap "time_in_cycles" = Some (Int <$> [1; 2; 1]) ∧
  contiguous_from_1 [5; 5; 7] [1; 2; 1] ∧
  last_record [5; 5; 7] [1; 2; 1] 1 5 2 ∧
  raises_TypeError (prepare_data 0%nat None) ex_heap_gap ∧
  ¬ (∃ out, returns (prepare_data 0%nat None) ex_heap_gap out).
Proof.
  split; [reflexivity|]. split; [reflexivity|].
  split; [exact ex_runs_gap_contiguous|].
  split; [exact ex_runs_gap_last_record|].
  split; [exact ex_gap_train_raises|].
  exact (TypeError_no_output _ _ ex_gap_train_raises).
Qed.

(** C7, as stated, fails.  The table with records of units 5 and 7 and none
    of unit 6 is well formed: each unit's cycles are contiguous from 1, and
    the label table gives both units a label that is at least 0.  No RUL is
    produced, in either variant: [prepare_data] raises a [TypeError]. *)
Lemma RUL_nonnegative_counterexample :
  contiguous_from_1 [5; 5; 7] [1; 2; 1] ∧
  labels_nonnegative ex_heap_gap (Some 2%nat) [5; 5; 7] ∧
  raises_TypeError (prepare_data 0%nat None) ex_heap_gap ∧
  raises_TypeError (prepare_data 0%nat (Some 2%nat)) ex_heap_gap.
Proof.
  split; [exact ex_runs_gap_contiguous|].
  split; [|split; [exact ex_gap_train_raises|exact ex_gap_test_raises]].
  exists ex_labels_gap, [5; 7], [10; 7].
  split; [reflexivity|]. split; [exact ex_labels_gap_table|].
  intros u Hu.
  repeat (apply elem_of_cons in Hu as [->|Hu]);
    [exists 0%nat, 10 | exists 0%nat, 10 | exists 1%nat, 7
    | by apply elem_of_nil in Hu];
    repeat split; by_evaluation.
Qed.


(** *** Witnesses of the further properties *)

Lemma ex_test_runs_table :
  run_table ex_test_runs ex_test_units ex_test_cycles.
Proof.
  repeat split; try reflexivity; try by_evaluation.
  apply (gap_free_check 1 101); by_evaluation.
Qed.

Lemma prepare_data_keeps_columns_witness :
  ∃ out, returns (prepare_data 0%nat (Some 1%nat)) ex_heap out ∧
         columns ex_runs `prefix_of` columns out ∧
         column out "time_in_cycles" = Some (Int <$> [1; 2; 3; 4; 5; 1; 2; 3]).
Proof.
  apply (prepare_data_keeps_columns ex_heap 0%nat (Some 1%nat) ex_runs
           [1; 1; 1; 1; 1; 2; 2; 2] [1; 2; 3; 4; 5; 1; 2; 3] "time_in_cycles").
  - reflexivity.
  - exact ex_runs_table.
  - exists ex_labels, [1; 2], [10; 7]. split; [reflexivity|exact ex_labels_table].
  - reflexivity.
Defined.

Lemma prepare_data_train_RUL_step_witness :
  ∃ out a b, returns (prepare_data 0%nat None) ex_heap out ∧
             cell_at out "RUL" 1 = Some (Int a) ∧
             cell_at out "RUL" 3 = Some (Int b) ∧
             a - b = 4 - 2.
Proof.
  apply (prepare_data_train_RUL_step ex_heap 0%nat ex_runs
           [1; 1; 1; 1; 1; 2; 2; 2] [1; 2; 3; 4; 5; 1; 2; 3] 1%nat 3%nat 1 2 4).
  - reflexivity.
  - exact ex_runs_table.
  - reflexivity.
  - reflexivity.
  - reflexivity.
  - reflexivity.
  - by_evaluation.
  - by_evaluation.
Defined.

Lemma prepare_data_test_is_train_plus_label_witness :
  ∃ out_test out_train a,
    returns (prepare_data 0%nat (Some 1%nat)) ex_heap out_test ∧
    returns (prepare_data 0%nat None) ex_heap out_train ∧
    cell_at out_train "RUL" 6 = Some (Int a) ∧
    cell_at out_test "RUL" 6 = Some (Int (a + 7)).
Proof.
  apply (prepare_data_test_is_train_plus_label ex_heap 0%nat 1%nat ex_runs ex_labels
           [1; 1; 1; 1; 1; 2; 2; 2] [1; 2; 3; 4; 5; 1; 2; 3] [1; 2] [10; 7]
           6%nat 2 2 7).
  - reflexivity.
  - reflexivity.
  - exact ex_runs_table.
  - exact ex_labels_table.
  - reflexivity.
  - reflexivity.
  - exists 1%nat. split; reflexivity.
  - by_evaluation.
  - by_evaluation.
Defined.

Lemma prepare_data_train_no_missing_witness :
  ∃ out z, returns (prepare_data 0%nat None) ex_heap out ∧
           cell_at out "RUL" 7 = Some (Int z).
Proof.
  apply (prepare_data_train_no_missing ex_heap 0%nat ex_runs
           [1; 1; 1; 1; 1; 2; 2; 2] [1; 2; 3; 4; 5; 1; 2; 3] 7%nat).
  - reflexivity.
  - exact ex_runs_table.
  - by_evaluation.
Defined.

Lemma prepare_data_missing_iff_unlabelled_witness :
  ∃ out, returns (prepare_data 0%nat (Some 2%nat)) ex_heap out ∧
         (cell_at out "RUL" 5 = Some NA ↔ 2 ∉ [1]).
Proof.
  apply (prepare_data_missing_iff_unlabelled ex_heap 0%nat 2%nat ex_runs
           ex_labels_truncated
           [1; 1; 1; 1; 1; 2; 2; 2] [1; 2; 3; 4; 5; 1; 2; 3] [1] [10] 5%nat 2).
  - reflexivity.
  - reflexivity.
  - exact ex_runs_table.
  - exact ex_labels_truncated_table.
  - reflexivity.
Defined.

Lemma ex_labels_agree (u r : Z) :
  u ∈ [1; 1; 1; 1; 1; 2; 2; 2] →
  has_label [1; 2] [10; 7] u r ↔ has_label [1; 2; 3] [10; 7; 7] u r.
Proof.
  intros Hu.
  assert (u = 1 ∨ u = 2) as Hcases.
  { repeat (apply elem_of_cons in Hu as [->|Hu]); auto.
    by apply elem_of_nil in Hu. }
  split; intros (j & Hj & Hr).
  - destruct j as [|[|j]]; simplify_eq/=.
    + by exists 0%nat.
    + by exists 1%nat.
  - destruct j as [|[|[|j]]]; simplify_eq/=.
    + by exists 0%nat.
    + by exists 1%nat.
    + lia.
Qed.

Lemma prepare_data_unused_labels_witness :
  ∃ out, returns (prepare_data 0%nat (Some 1%nat)) ex_heap out ∧
         returns (prepare_data 0%nat (Some 4%nat)) ex_heap out.
Proof.
  apply (prepare_data_unused_labels ex_heap 0%nat 1%nat 4%nat ex_runs
           ex_labels ex_labels_extra
           [1; 1; 1; 1; 1; 2; 2; 2] [1; 2; 3; 4; 5; 1; 2; 3]
           [1; 2] [10; 7] [1; 2; 3] [10; 7; 7]).
  - reflexivity.
  - reflexivity.
  - reflexivity.
  - exact ex_runs_table.
  - exact ex_labels_table.
  - exact ex_labels_extra_table.
  - intros u r Hu. by apply ex_labels_agree.
Defined.

Lemma prepare_data_missing_key_column_witness :
  raises (prepare_data 2%nat None) ex_heap_refused.
Proof.
  apply (prepare_data_missing_key_column ex_heap_refused 2%nat None
           ex_runs_no_cycles).
  - reflexivity.
  - right. reflexivity.
Defined.

Lemma prepare_data_max_cycles_collision_witness :
  raises_ValueError (prepare_data 3%nat None) ex_heap_refused.
Proof.
  apply (prepare_data_max_cycles_collision ex_heap_refused 3%nat None
           ex_runs_max_cycles (Int <$> [1; 1]) (Int <$> [1; 2])).
  - reflexivity.
  - reflexivity.
  - reflexivity.
  - by_evaluation.
Defined.

Lemma prepare_data_remaining_cycles_collision_witness :
  raises_ValueError (prepare_data 4%nat (Some 1%nat)) ex_heap_refused.
Proof.
  apply (prepare_data_remaining_cycles_collision ex_heap_refused 4%nat 1%nat
           ex_runs_remaining_cycles ex_labels [1; 1] (Int <$> [1; 2]) [1; 2] [10; 7]).
  - reflexivity.
  - reflexivity.
  - reflexivity.
  - reflexivity.
  - by_evaluation.
  - apply (gap_free_check 1 1); by_evaluation.
  - by_evaluation.
  - by_evaluation.
  - exact ex_labels_table.
Defined.

Lemma prepare_data_duplicate_labels_witness :
  raises_ValueError (prepare_data 0%nat (Some 5%nat)) ex_heap_refused.
Proof.
  apply (prepare_data_duplicate_labels ex_heap_refused 0%nat 5%nat
           ex_runs ex_labels_duplicate
           [1; 1; 1; 1; 1; 2; 2; 2] [1; 2; 3; 4; 5; 1; 2; 3] [1; 1] [10; 7]).
  - reflexivity.
  - reflexivity.
  - exact ex_runs_table.
  - reflexivity.
  - by_evaluation.
Defined.

Lemma prepare_data_empty_table_witness :
  raises_IndexError (prepare_data 1%nat (Some 2%nat)) ex_heap_gap.
Proof.
  apply (prepare_data_empty_table ex_heap_gap 1%nat (Some 2%nat) ex_runs_empty []).
  - reflexivity.
  - reflexivity.
  - reflexivity.
  - by_evaluation.
Defined.


Lemma cell_6_tables_witness :
  ∃ out_train out_test r1 r2 h',
    returns (prepare_data 0%nat None) ex_heap_cells out_train ∧
    returns (prepare_data 1%nat (Some 2%nat)) ex_heap_cells out_test ∧
    cell_6 0%nat 1%nat 2%nat ex_heap_cells = (Ok (r1, r2), h') ∧
    r1 ≠ r2 ∧
    h' !! r1 = Some out_train ∧ h' !! r2 = Some out_test ∧
    h' !! 0%nat = Some ex_runs ∧ h' !! 1%nat = Some ex_test_runs ∧
    h' !! 2%nat = Some ex_labels.
Proof.
  apply (cell_6_tables ex_heap_cells 0%nat 1%nat 2%nat ex_runs ex_test_runs
           ex_labels [1; 1; 1; 1; 1; 2; 2; 2] [1; 2; 3; 4; 5; 1; 2; 3]
           ex_test_units ex_test_cycles [1; 2] [10; 7]).
  - reflexivity.
  - reflexivity.
  - reflexivity.
  - exact ex_runs_table.
  - exact ex_test_runs_table.
  - exact ex_labels_table.
Defined.

Lemma notebook_test_RUL_witness :
  ∃ r1 r2 h' out,
    notebook 0%nat 1%nat ex_label_lines ex_heap_cells = (Ok (r1, r2), h') ∧
    h' !! r2 = Some out ∧
    cell_at out "RUL" 0 = Some (Int 150).
Proof.
  apply (notebook_test_RUL ex_heap_cells 0%nat 1%nat ex_runs ex_test_runs
           ex_label_lines [1; 1; 1; 1; 1; 2; 2; 2] [1; 2; 3; 4; 5; 1; 2; 3]
           ex_test_units ex_test_cycles 0%nat 1 1 149).
  - reflexivity.
  - reflexivity.
  - exact ex_runs_table.
  - exact ex_test_runs_table.
  - reflexivity.
  - by_evaluation.
  - reflexivity.
  - reflexivity.
  - by_evaluation.
  - reflexivity.
  - by_evaluation.
Defined.

Lemma notebook_unit_out_of_range_witness :
  ∃ r1 r2 h' out,
    notebook 0%nat 1%nat ex_label_lines ex_heap_cells = (Ok (r1, r2), h') ∧
    h' !! r2 = Some out ∧
    cell_at out "RUL" 101 = Some NA.
Proof.
  apply (notebook_unit_out_of_range ex_heap_cells 0%nat 1%nat ex_runs ex_test_runs
           ex_label_lines [1; 1; 1; 1; 1; 2; 2; 2] [1; 2; 3; 4; 5; 1; 2; 3]
           ex_test_units ex_test_cycles 101%nat 101).
  - reflexivity.
  - reflexivity.
  - exact ex_runs_table.
  - exact ex_test_runs_table.
  - reflexivity.
  - by_evaluation.
  - reflexivity.
  - right. by_evaluation.
Defined.

Lemma y_test_other_length_witness :
  raises_ValueError (y_test ex_label_lines_short) [].
Proof.
  apply (y_test_other_length [] ex_label_lines_short). by_evaluation.
Defined.

Lemma y_test_shape_witness :
  ∃ out, returns (y_test ex_label_lines) [] out ∧
         length_original out = 100%nat ∧
         get_column_names out = ["remaining_cycles"; "unit_number"] ∧
         column out "remaining_cycles" = Some (Int <$> ex_label_lines) ∧
         label_table out (seqZ 1 100) ex_label_lines.
Proof.
  apply (y_test_shape [] ex_label_lines). reflexivity.
Defined.

End Examples.
